(** * openshift-vsts: the [oc] install handler ([src/oc-install.ts])

    A shallow embedding of [InstallHandler]: the version resolver
    ([latestStable], [ocBundleURL], [getOcBundleByOS]), the install
    orchestration ([installOc]), the fetcher/extractor
    ([downloadAndExtract]), PATH registration ([addOcToPath]) and the
    local-reuse check ([getLocalOcPath], [getOcVersion]).

    JavaScript strings are modelled as [string] (8-bit characters), a
    [string | null] value as [option string], the parsed [oc-utils.json]
    object as a [gmap string string], and asynchronous functions as state
    passing over an explicit [World], a rejected promise being an [Err]. *)

From Stdlib Require Import ZArith Ascii String List Lia.
From stdpp Require Import gmap strings.

Local Open Scope string_scope.

(** ** JavaScript string primitives used by the handler *)

Module Js.

(** [!s] is false exactly for the non-empty strings. *)
Definition truthy (s : string) : bool :=
  match s with EmptyString => false | String _ _ => true end.

(** A value that may be [null]/[undefined] is truthy when it is a
    non-empty string. *)
Definition truthyOpt (o : option string) : bool :=
  match o with Some s => truthy s | None => false end.

(** [`${x}`] and [... + x] for an [x] that may be [undefined]. *)
Definition str (o : option string) : string :=
  match o with Some s => s | None => "undefined" end.

(** [s.startsWith(p)] *)
Fixpoint startsWith (p s : string) : bool :=
  match p, s with
  | EmptyString, _ => true
  | String a p', String b s' => if Ascii.eqb a b then startsWith p' s' else false
  | String _ _, EmptyString => false
  end.

(** [s.substr(n)] for a natural [n]: the string without its first [n]
    characters. *)
Fixpoint dropStr (n : nat) (s : string) : string :=
  match n, s with
  | O, _ => s
  | S n', String _ s' => dropStr n' s'
  | S _, EmptyString => EmptyString
  end.

(** The first [n] characters of [s]. *)
Fixpoint takeStr (n : nat) (s : string) : string :=
  match n, s with
  | O, _ => EmptyString
  | S n', String a s' => String a (takeStr n' s')
  | S _, EmptyString => EmptyString
  end.

(** [s.substr(0, len)]: a negative [len] counts as zero. *)
Definition substr0 (s : string) (len : Z) : string :=
  takeStr (Z.to_nat len) s.

(** [s.lastIndexOf(c)] for a one-character needle: the index of the
    last occurrence, or [-1]. *)
Fixpoint lastIndexOf (c : ascii) (s : string) : Z :=
  match s with
  | EmptyString => (-1)%Z
  | String a s' =>
      let r := lastIndexOf c s' in
      if (0 <=? r)%Z then (r + 1)%Z
      else if Ascii.eqb a c then 0%Z else (-1)%Z
  end.

(** [s.split(sep)] for a one-character separator; the result always
    has at least one part. *)
Fixpoint split (sep : ascii) (s : string) : list string :=
  match s with
  | EmptyString => [EmptyString]
  | String a s' =>
      if Ascii.eqb a sep then EmptyString :: split sep s'
      else match split sep s' with
           | p :: ps => String a p :: ps
           | [] => [String a EmptyString]
           end
  end.

(** [s.replace(pat, rep)] with a string pattern: only the first
    occurrence is replaced. *)
Fixpoint replace (pat rep s : string) : string :=
  if startsWith pat s then rep +:+ dropStr (String.length pat) s
  else match s with
       | EmptyString => EmptyString
       | String a s' => String a (replace pat rep s')
       end.

(** [c.toLowerCase()] on the characters modelled here. *)
Definition lowerChar (c : ascii) : ascii :=
  let n := nat_of_ascii c in
  if (65 <=? n)%nat && (n <=? 90)%nat then ascii_of_nat (n + 32) else c.

Fixpoint toLowerCase (s : string) : string :=
  match s with
  | EmptyString => EmptyString
  | String a s' => String (lowerChar a) (toLowerCase s')
  end.

Definition isDigit (c : ascii) : bool :=
  let n := nat_of_ascii c in (48 <=? n)%nat && (n <=? 57)%nat.

(** Unary [+] on a string of decimal digits.  The value is kept exact;
    the handler only compares it with 3 and 4, which no rounding of a
    larger number can produce. *)
Definition toNumber (digits : string) : N :=
  fold_left (fun acc c => (10 * acc + (N_of_ascii c - 48))%N)
            (list_ascii_of_string digits) 0%N.

End Js.

(** ** The regular expressions of the handler

    The three expressions of [oc-install.ts] use single characters and
    character classes, greedy [+] on a class and a one-character positive
    lookahead.  [matchHere] is the backtracking matcher at a fixed start
    position, [exec] is [RegExp.prototype.exec] without the [g] flag: the
    leftmost start position that matches wins, and the result is
    [match[0]]. *)

Module Regex.

Inductive item : Type :=
| One (c : ascii -> bool)      (* a class, once *)
| Many1 (c : ascii -> bool)    (* class+ , greedy *)
| Ahead (c : ascii -> bool).   (* (?=class) *)

Fixpoint matchHere (pat : list item) : string -> option string :=
  match pat with
  | [] => fun _ => Some EmptyString
  | One c :: pat' => fun s =>
      match s with
      | String a s' => if c a then String a <$> matchHere pat' s' else None
      | EmptyString => None
      end
  | Ahead c :: pat' => fun s =>
      match s with
      | String a _ => if c a then matchHere pat' s else None
      | EmptyString => None
      end
  | Many1 c :: pat' =>
      fix many (s : string) : option string :=
        match s with
        | String a s' =>
            if c a then
              match many s' with
              | Some m => Some (String a m)
              | None => String a <$> matchHere pat' s'
              end
            else None
        | EmptyString => None
        end
  end.

Fixpoint exec (pat : list item) (s : string) : option string :=
  match matchHere pat s with
  | Some m => Some m
  | None =>
      match s with
      | EmptyString => None
      | String _ s' => exec pat s'
      end
  end.

Definition isDot (c : ascii) : bool := Ascii.eqb c ".".
Definition isV (c : ascii) : bool := Ascii.eqb c "v".

(** [.] matches every character but a line terminator. *)
Definition anyChar (c : ascii) : bool :=
  negb (Ascii.eqb c "010" || Ascii.eqb c "013").

(** [new RegExp('\\d+(?=\\.)')] *)
Definition majorRe : list item := [Many1 Js.isDigit; Ahead isDot].

(** [new RegExp('\\d+\\.\\d+(?=\\.)')] *)
Definition majorMinorRe : list item :=
  [Many1 Js.isDigit; One isDot; Many1 Js.isDigit; Ahead isDot].

(** [new RegExp('v[0-9]+.[0-9]+.[0-9]+')] *)
Definition localVersionRe : list item :=
  [One isV; Many1 Js.isDigit; One anyChar; Many1 Js.isDigit;
   One anyChar; Many1 Js.isDigit].

End Regex.

(** ** The major version, in words

    The major version as "the first maximal run of digits, anywhere in
    the string, that is immediately followed by a dot": the string is
    walked from left to right, every place where a run of digits begins
    is a candidate, and the first candidate whose run ends at a dot is
    the answer.  [exec majorRe] is compared with it below. *)

(** The digits at the head of [s], and what follows them. *)
Fixpoint spanDigits (s : string) : string * string :=
  match s with
  | String a s' =>
      if Js.isDigit a
      then let (run, rest) := spanDigits s' in (String a run, rest)
      else (EmptyString, s)
  | EmptyString => (EmptyString, EmptyString)
  end.

(** [prevDigit] tells whether the character before [s] is a digit, in
    which case no run begins at the head of [s]. *)
Fixpoint firstRunBeforeDot (prevDigit : bool) (s : string) : option string :=
  match s with
  | EmptyString => None
  | String a s' =>
      if Js.isDigit a && negb prevDigit then
        let (run, rest) := spanDigits s in
        if Js.startsWith "." rest then Some run
        else firstRunBeforeDot true s'
      else firstRunBeforeDot (Js.isDigit a) s'
  end.

(** The same in terms of the places of the string.  [digitRunAt b s pre
    m post] says that [s] is [pre], then the non-empty digit run [m],
    then a dot, then [post], and that the character before [m] is not a
    digit, so that the run is maximal; [b] tells whether a digit
    precedes [s] itself. *)
Fixpoint allDigits (s : string) : bool :=
  match s with
  | EmptyString => true
  | String a s' => Js.isDigit a && allDigits s'
  end.

Fixpoint lastIsDigit (b : bool) (s : string) : bool :=
  match s with
  | EmptyString => b
  | String a s' => lastIsDigit (Js.isDigit a) s'
  end.

Definition digitRunAt (b : bool) (s pre m post : string) : Prop :=
  s = pre +:+ m +:+ String "." post
  /\ m <> EmptyString
  /\ allDigits m = true
  /\ lastIsDigit b pre = false.

(** ** Constants and the [oc-utils.json] table *)

(** Modelled from the spec: [src/constants.ts] is not part of the sources
    at hand.  The spec's end-to-end scenario resolves ["Windows_NT"] to
    [<v4base>/4.1/windows/oc.zip] and its latest-stable URL is
    [V4Base + "/latest/" + bundle], which fixes [WIN], [OC_ZIP] and
    [LATEST]. *)
Definition WIN : string := "windows".
Definition OC_ZIP : string := "oc.zip".
Definition LATEST : string := "latest".

(** The constants whose values neither the sources nor the spec give. *)
Class Constants : Type := {
  LINUX : string;
  MACOSX : string;
  OC_TAR_GZ : string
}.

(** [ocUtils['openshiftV3BaseUrl']] and [ocUtils['openshiftV4BaseUrl']]
    as they appear inside a template string. *)
Definition V3Base (ocUtils : gmap string string) : string :=
  Js.str (ocUtils !! "openshiftV3BaseUrl").
Definition V4Base (ocUtils : gmap string string) : string :=
  Js.str (ocUtils !! "openshiftV4BaseUrl").

(** ** The resolver *)

(** [InstallHandler.getOcBundleByOS] *)
Definition getOcBundleByOS `{Constants} (osType : string) : option string :=
  if String.eqb osType "Linux" then Some (LINUX +:+ "/" +:+ OC_TAR_GZ)
  else if String.eqb osType "Darwin" then Some (MACOSX +:+ "/" +:+ OC_TAR_GZ)
  else if String.eqb osType "Windows_NT" then Some (WIN +:+ "/" +:+ OC_ZIP)
  else None.

(** [InstallHandler.latestStable]; [ocUtils] is the object [getOcUtils]
    resolves to. *)
Definition latestStable `{Constants} (ocUtils : gmap string string)
    (osType : string) : option string :=
  match getOcBundleByOS osType with
  | Some bundle =>
      if Js.truthy bundle
      then Some (V4Base ocUtils +:+ "/" +:+ LATEST +:+ "/" +:+ bundle)
      else None
  | None => None
  end.

(** The version after
    [if (version.startsWith('v')) version = version.substr(1)]. *)
Definition stripV (version : string) : string :=
  if Js.startsWith "v" version then Js.dropStr 1 version else version.

(** The [if (latest) { ... }] block of [ocBundleURL]: the version that
    goes into the URL, [None] where the block returns [null]. *)
Definition latestPatch (ocUtils : gmap string string) (version : string)
  : option string :=
  match Regex.exec Regex.majorMinorRe version with
  | None => None
  | Some baseVersion =>
      if Js.truthyOpt (ocUtils !! ("oc" +:+ baseVersion))
      then ocUtils !! ("oc" +:+ baseVersion)
      else None
  end.

(** The [if (vMajor === 3) ... else if (vMajor === 4) ... else] chain. *)
Definition baseUrlFor (ocUtils : gmap string string) (vMajor : N)
    (version : string) : option string :=
  if (vMajor =? 3)%N then Some (V3Base ocUtils +:+ "/" +:+ version +:+ "/")
  else if (vMajor =? 4)%N then Some (V4Base ocUtils +:+ "/" +:+ version +:+ "/")
  else None.

(** [InstallHandler.ocBundleURL]; a [null] version argument behaves as
    the empty string. *)
Definition ocBundleURL `{Constants} (ocUtils : gmap string string)
    (version osType : string) (latest : bool) : option string :=
  if negb (Js.truthy version) then None
  else
    let version := stripV version in
    match Regex.exec Regex.majorRe version with
    | None => None
    | Some vMajorRegEx =>
        let vMajor := Js.toNumber vMajorRegEx in
        match (if latest then latestPatch ocUtils version else Some version) with
        | None => None
        | Some version =>
            match baseUrlFor ocUtils vMajor version with
            | None => None
            | Some url =>
                match getOcBundleByOS osType with
                | Some bundle =>
                    if Js.truthy bundle then Some (url +:+ bundle) else None
                | None => None
                end
            end
        end
    end.

(** ** The host: file system, task variables and collaborators *)

(** What [execOcSync] returns: the two fields the handler reads. *)
Record ExecResult : Type := {
  stdout : string;
  stderr : string
}.

(** The collaborators of the handler that are not part of it: the task
    library, [node-fetch], [valid-url], [adm-zip], [decompress], the
    [oc-exec] module and Node's [path].  An [option] result is [None]
    where the collaborator throws or its promise rejects.  [ocUtils] is
    the table once [getOcUtils] has read and parsed [oc-utils.json]; a
    run in which that file cannot be read or parsed is outside the
    model. *)
Class Host : Type := {
  ocUtils : gmap string string;             (* getOcUtils() *)
  workingDirectory : option string;         (* process.env['SYSTEM_DEFAULTWORKINGDIRECTORY'] *)
  whichOc : option string;                  (* tl.which('oc', true) *)
  execOcSync : string -> string -> option ExecResult;
  isWebUri : string -> bool;                (* validUrl.isWebUri, as a truth value *)
  fetchHead : option string -> option bool; (* response.ok of fetch(url, HEAD) *)
  mkdirExec : string -> bool;               (* mkdir -p dir *)
  curlExec : string -> string -> bool;      (* curl -s -L -o archivePath url *)
  extractAllTo : string -> string -> option (list string);
  decompress : string -> string -> option (list string);
  normalize : string -> string;             (* path.normalize *)
  join : string -> string -> string         (* path.join *)
}.

(** The state the handler reads and writes.  [files] holds the
    normalized paths that exist, [transfers] the URLs fetched by [curl],
    the newest first. *)
Record World : Type := {
  files : gset string;
  variables : gmap string string;
  transfers : list string
}.

(** How a promise of the handler is rejected. *)
Inductive rejection : Type :=
| RejectString (msg : string)      (* [Promise.reject('...')], [throw '...'] *)
| RejectError (message : string)   (* [throw new Error('...')] *)
| RejectTool (tool : string).      (* a collaborator failed *)

Inductive outcome (A : Type) : Type :=
| Ok (a : A)
| Err (e : rejection).
Arguments Ok {A} a.
Arguments Err {A} e.

(** An asynchronous step: it runs in a world and leaves one behind, also
    when it is rejected. *)
Definition M (A : Type) : Type := World -> outcome A * World.

Definition ret {A} (a : A) : M A := fun w => (Ok a, w).
Definition reject {A} (e : rejection) : M A := fun w => (Err e, w).
Definition bind {A B} (m : M A) (k : A -> M B) : M B :=
  fun w => match m w with
           | (Ok a, w') => k a w'
           | (Err e, w') => (Err e, w')
           end.

Notation "x <- m ;; k" := (bind m (fun x => k))
  (at level 100, m at next level, right associativity).
Notation "m ;;; k" := (bind m (fun _ => k))
  (at level 100, right associativity).

(** [tl.exist(p)] and [fs.existsSync(p)] in a world where every path is
    either there or not.  [tl.exist] rethrows the error of a [stat] that
    fails in another way (a parent that is a regular file, a missing
    permission); such a run is outside the model. *)
Definition exist `{Host} (p : string) : M bool :=
  fun w => (Ok (bool_decide (normalize p ∈ files w)), w).

Definition createFile `{Host} (p : string) (w : World) : World :=
  {| files := {[normalize p]} ∪ files w;
     variables := variables w;
     transfers := transfers w |}.

Definition createFiles `{Host} (ps : list string) (w : World) : World :=
  {| files := list_to_set (normalize <$> ps) ∪ files w;
     variables := variables w;
     transfers := transfers w |}.

(** [await mkdir.exec()] *)
Definition mkdir `{Host} (dir : string) : M unit :=
  fun w => if mkdirExec dir then (Ok tt, createFile dir w)
           else (Err (RejectTool "mkdir"), w).

(** [await curl.exec()]: the transfer is attempted; when [curl]
    succeeds the archive has been written. *)
Definition curl `{Host} (archivePath url : string) : M unit :=
  fun w =>
    let w' := {| files := files w; variables := variables w;
                 transfers := url :: transfers w |} in
    if curlExec archivePath url then (Ok tt, createFile archivePath w')
    else (Err (RejectTool "curl"), w').

(** [zip.extractAllTo(dir)] and [await decompress(archivePath, dir, ...)]:
    the entries of the archive are written below [dir]. *)
Definition unzip `{Host} (archivePath dir : string) : M unit :=
  fun w => match extractAllTo archivePath dir with
           | Some entries => (Ok tt, createFiles entries w)
           | None => (Err (RejectTool "adm-zip"), w)
           end.

Definition untargz `{Host} (archivePath dir : string) : M unit :=
  fun w => match decompress archivePath dir with
           | Some entries => (Ok tt, createFiles entries w)
           | None => (Err (RejectTool "decompress"), w)
           end.

(** [tl.getVariable(name)] and [tl.setVariable(name, value)] *)
Definition getVariable (name : string) : M (option string) :=
  fun w => (Ok (variables w !! name), w).

Definition setVariable (name value : string) : M unit :=
  fun w => (Ok tt, {| files := files w;
                      variables := <[name := value]> (variables w);
                      transfers := transfers w |}).

(** ** [path.extname]

    Node's [path.extname] in its POSIX flavour, following the loop of its
    reference implementation: the path is scanned from its last
    character to its first, [startDot] is the last dot of the last path
    component, and a component that starts with its only dot, or is
    [..], has no extension. *)

Module NodePath.

Record scan : Type := {
  startDot : Z;
  startPart : Z;
  endPos : Z;
  matchedSlash : bool;
  preDotState : Z
}.

Definition scan0 : scan :=
  {| startDot := -1; startPart := 0; endPos := -1;
     matchedSlash := true; preDotState := 0 |}.

(** One character that is not a path separator, at index [i]. *)
Definition visit (i : Z) (code : ascii) (st : scan) : scan :=
  let st1 :=
    if (endPos st =? -1)%Z
    then {| startDot := startDot st; startPart := startPart st;
            endPos := i + 1; matchedSlash := false;
            preDotState := preDotState st |}
    else st in
  if Ascii.eqb code "." then
    if (startDot st1 =? -1)%Z
    then {| startDot := i; startPart := startPart st1;
            endPos := endPos st1; matchedSlash := matchedSlash st1;
            preDotState := preDotState st1 |}
    else {| startDot := startDot st1; startPart := startPart st1;
            endPos := endPos st1; matchedSlash := matchedSlash st1;
            preDotState := 1 |}
  else if negb (startDot st1 =? -1)%Z
       then {| startDot := startDot st1; startPart := startPart st1;
               endPos := endPos st1; matchedSlash := matchedSlash st1;
               preDotState := -1 |}
       else st1.

(** [for (let i = n - 1; i >= 0; --i) { ... }] *)
Fixpoint loop (path : string) (n : nat) (st : scan) : scan :=
  match n with
  | O => st
  | S i =>
      match String.get i path with
      | None => st
      | Some code =>
          if Ascii.eqb code "/" then
            if negb (matchedSlash st)
            then {| startDot := startDot st; startPart := Z.of_nat i + 1;
                    endPos := endPos st; matchedSlash := matchedSlash st;
                    preDotState := preDotState st |}
            else loop path i st
          else loop path i (visit (Z.of_nat i) code st)
      end
  end.

Definition extname (path : string) : string :=
  let st := loop path (String.length path) scan0 in
  if (startDot st =? -1)%Z || (endPos st =? -1)%Z || (preDotState st =? 0)%Z
     || ((preDotState st =? 1)%Z && (startDot st =? endPos st - 1)%Z
         && (startDot st =? startPart st + 1)%Z)
  then EmptyString
  else Js.takeStr (Z.to_nat (endPos st - startDot st))
                  (Js.dropStr (Z.to_nat (startDot st)) path).

End NodePath.

(** ** The fetcher/extractor *)

(** [parts[parts.length - 1]] of [url.split('/')] *)
Definition archiveOf (url : string) : string :=
  List.last (Js.split "/" url) EmptyString.

(** The archive type as [downloadAndExtract] derives it from the archive
    name: [path.extname], turned into [.tar.gz] when what is left of the
    name once its extension is removed still ends in [.tar]. *)
Definition archiveTypeOf (archive : string) : string :=
  let archiveType := NodePath.extname archive in
  let expandDir := Js.replace archiveType EmptyString archive in
  if String.eqb (NodePath.extname expandDir) ".tar" then ".tar.gz"
  else archiveType.

(** The download step of [downloadAndExtract]: the archive is fetched
    unless a file of its name is already in the directory. *)
Definition download `{Host} (url downloadDir : string) : M string :=
  let archivePath := join downloadDir (archiveOf url) in
  present <- exist archivePath ;;
  (if negb present then curl archivePath url else ret tt) ;;;
  ret archivePath.

(** The [switch (archiveType)] of [downloadAndExtract]. *)
Definition extract `{Host} (archivePath archiveType downloadDir : string)
  : M unit :=
  if String.eqb archiveType ".zip" then unzip archivePath downloadDir
  else if String.eqb archiveType ".tgz" || String.eqb archiveType ".tar.gz"
       then untargz archivePath downloadDir
       else reject (RejectString ("unknown archive format " +:+ archivePath)).

(** The name of the executable, [switch (osType)]. *)
Definition ocBinaryName (osType : string) : string :=
  if String.eqb osType "Windows_NT" then "oc.exe" else "oc".

(** [InstallHandler.downloadAndExtract].  The [fs.chmodSync] on the
    executable found changes nothing the model keeps and is taken to
    succeed. *)
Definition downloadAndExtract `{Host} (url downloadDir osType : string)
  : M (option string) :=
  if negb (Js.truthy url) then ret None
  else
    let downloadDir := normalize downloadDir in
    present <- exist downloadDir ;;
    if negb present
    then reject (RejectString (downloadDir +:+ " does not exist."))
    else
      archivePath <- download url downloadDir ;;
      extract archivePath (archiveTypeOf (archiveOf url)) downloadDir ;;;
      let ocBinary := join downloadDir (ocBinaryName osType) in
      found <- exist ocBinary ;;
      if negb found then ret None else ret (Some ocBinary).

(** ** Reuse of a local [oc] *)

(** [InstallHandler.getOcVersion] *)
Definition getOcVersion `{Host} (ocPath : string) : option string :=
  let result := execOcSync ocPath "version --short=true --client=true" in
  let result :=
    match result with
    | Some r => if Js.truthy (stderr r) then execOcSync ocPath "version"
                else result
    | None => execOcSync ocPath "version"
    end in
  match result with
  | Some r =>
      if Js.truthy (stdout r)
      then Regex.exec Regex.localVersionRe (stdout r)
      else None
  | None => None
  end.

(** [InstallHandler.getLocalOcPath]; [None] is [undefined]. *)
Definition getLocalOcPath `{Host} (version : string) : option string :=
  let ocPath := whichOc in
  match ocPath with
  | Some p =>
      if Js.truthy version && Js.truthy p then
        match getOcVersion p with
        | Some localOcVersion =>
            if negb (Js.truthy localOcVersion)
               || negb (String.eqb (Js.toLowerCase localOcVersion)
                                   (Js.toLowerCase version))
            then None
            else ocPath
        | None => None
        end
      else ocPath
  | None => None
  end.

(** ** PATH registration *)

(** The directory part of [ocPath]:
    [ocPath.substr(0, ocPath.lastIndexOf(sep))]. *)
Definition dirOf (sep : ascii) (ocPath : string) : string :=
  Js.substr0 ocPath (Js.lastIndexOf sep ocPath).

(** [InstallHandler.addOcToPath]; [None] is [null]. *)
Definition addOcToPath (ocPath : option string) (osType : string) : M unit :=
  match ocPath with
  | None => reject (RejectError "path cannot be null or empty")
  | Some EmptyString => reject (RejectError "path cannot be null or empty")
  | Some p =>
      if String.eqb osType "Windows_NT" then
        old <- getVariable "PATH" ;;
        setVariable "PATH" (dirOf "\" p +:+ ";" +:+ Js.str old)
      else
        old <- getVariable "PATH" ;;
        setVariable "PATH" (dirOf "/" p +:+ ":" +:+ Js.str old)
  end.

(** ** The install orchestration *)

(** The version to download: the one given or, when none is given, the
    URL of the latest stable release
    ([if (!downloadVersion) { ... }]). *)
Definition pickVersion `{Constants} `{Host} (downloadVersion osType : string)
  : M string :=
  if negb (Js.truthy downloadVersion) then
    match latestStable ocUtils osType with
    | None => reject (RejectString "Unable to determine latest oc download URL")
    | Some url => ret url
    end
  else ret downloadVersion.

(** [process.env['SYSTEM_DEFAULTWORKINGDIRECTORY'] + '/.download'] *)
Definition downloadDirectory `{Host} : string :=
  Js.str workingDirectory +:+ "/.download".

(** [if (!fs.existsSync(downloadDir)) { ... await mkdir.exec(); }] *)
Definition ensureDirectory `{Host} (downloadDir : string) : M unit :=
  present <- exist downloadDir ;;
  if negb present then mkdir downloadDir else ret tt.

(** The URL for a version that is not itself a web URI: the URL for the
    version as given and, when the [HEAD] request on it is not answered
    with success, the URL for the latest patch release. *)
Definition resolveUrl `{Constants} `{Host} (downloadVersion osType : string)
  : M (option string) :=
  fun w =>
    let url := ocBundleURL ocUtils downloadVersion osType false in
    match fetchHead url with
    | None => (Err (RejectTool "fetch"), w)
    | Some ok =>
        if negb ok
        then (Ok (ocBundleURL ocUtils downloadVersion osType true), w)
        else (Ok url, w)
    end.

(** [if (validUrl.isWebUri(downloadVersion)) { ... } else { ... }] *)
Definition chooseUrl `{Constants} `{Host} (downloadVersion osType : string)
  : M (option string) :=
  if isWebUri downloadVersion then ret (Some downloadVersion)
  else resolveUrl downloadVersion osType.

(** [InstallHandler.installOc] *)
Definition installOc `{Constants} `{Host}
    (downloadVersion osType : string) (useLocalOc : bool) : M string :=
  let localOcPath :=
    if useLocalOc then getLocalOcPath downloadVersion else None in
  if Js.truthyOpt localOcPath then ret (Js.str localOcPath)
  else
    downloadVersion <- pickVersion downloadVersion osType ;;
    ensureDirectory downloadDirectory ;;;
    url <- chooseUrl downloadVersion osType ;;
    match url with
    | None => reject (RejectString "Unable to determine oc download URL.")
    | Some url =>
        ocBinary <- downloadAndExtract url downloadDirectory osType ;;
        match ocBinary with
        | None => reject (RejectString "Unable to download or extract oc binary.")
        | Some ocBinary => ret ocBinary
        end
    end.

(** ** What a match is

    The meaning of a pattern, apart from the order in which the matcher
    tries things: [Matches pat m rest] says that the text [m], followed
    in the subject by [rest], is matched by [pat]. *)

Fixpoint allOf (c : ascii -> bool) (s : string) : bool :=
  match s with
  | EmptyString => true
  | String a s' => c a && allOf c s'
  end.

Inductive Matches : list Regex.item -> string -> string -> Prop :=
| MatchesNil (rest : string) :
    Matches [] EmptyString rest
| MatchesOne (c : ascii -> bool) (pat : list Regex.item)
    (a : ascii) (m rest : string) :
    c a = true -> Matches pat m rest ->
    Matches (Regex.One c :: pat) (String a m) rest
| MatchesAhead (c : ascii -> bool) (pat : list Regex.item)
    (a : ascii) (m rest tail : string) :
    m +:+ rest = String a tail -> c a = true -> Matches pat m rest ->
    Matches (Regex.Ahead c :: pat) m rest
| MatchesMany1 (c : ascii -> bool) (pat : list Regex.item)
    (run m rest : string) :
    run <> EmptyString -> allOf c run = true -> Matches pat m rest ->
    Matches (Regex.Many1 c :: pat) (run +:+ m) rest.

(** The number of occurrences of a character. *)
Fixpoint countChar (c : ascii) (s : string) : nat :=
  match s with
  | EmptyString => 0
  | String a s' => (if Ascii.eqb a c then 1 else 0) + countChar c s'
  end.

(** ** The earlier generation of the handler

    [oc-install.ts] also holds the handler as it was before the table of
    latest patches and the reuse of a local [oc]: the mirrors are
    constants, there is no fallback resolution, and the archive is
    expanded into a directory named after it, once. *)

Module Legacy.

(** The two mirror constants of [constants.ts], which is not part of the
    sources at hand. *)
Class BaseUrls : Type := {
  OPENSHIFT_V3_BASE_URL : string;
  OPENSHIFT_V4_BASE_URL : string
}.

(** [decompress(archivePath, downloadDir, { plugins: [decompressTargz()] })]:
    the call without the filter on empty entries. *)
Class Unfiltered : Type := {
  decompressAll : string -> string -> option (list string)
}.

(** [InstallHandler.latestStable] *)
Definition latestStable `{Constants} `{BaseUrls} (osType : string)
  : option string :=
  match getOcBundleByOS osType with
  | Some bundle =>
      if Js.truthy bundle
      then Some (OPENSHIFT_V4_BASE_URL +:+ "/" +:+ LATEST +:+ "/" +:+ bundle)
      else None
  | None => None
  end.

(** [InstallHandler.ocBundleURL] *)
Definition ocBundleURL `{Constants} `{BaseUrls} (version osType : string)
  : option string :=
  if negb (Js.truthy version) then None
  else
    let version := stripV version in
    match Regex.exec Regex.majorRe version with
    | None => None
    | Some vMajorRegEx =>
        let vMajor := Js.toNumber vMajorRegEx in
        match (if (vMajor =? 3)%N
               then Some (OPENSHIFT_V3_BASE_URL +:+ "/" +:+ version +:+ "/")
               else if (vMajor =? 4)%N
                    then Some (OPENSHIFT_V4_BASE_URL +:+ "/" +:+ version +:+ "/")
                    else None) with
        | None => None
        | Some url =>
            match getOcBundleByOS osType with
            | Some bundle =>
                if Js.truthy bundle then Some (url +:+ bundle) else None
            | None => None
            end
        end
    end.

(** The name of the directory the archive is expanded into: the archive
    name without its extension, and without a [.tar] that is left. *)
Definition expandDirOf (archive : string) : string :=
  let archiveType := NodePath.extname archive in
  let expandDir := Js.replace archiveType EmptyString archive in
  if String.eqb (NodePath.extname expandDir) ".tar"
  then Js.replace ".tar" EmptyString expandDir
  else expandDir.

Definition untargzAll `{Host} `{Unfiltered} (archivePath dir : string) : M unit :=
  fun w => match decompressAll archivePath dir with
           | Some entries => (Ok tt, createFiles entries w)
           | None => (Err (RejectTool "decompress"), w)
           end.

(** The [switch (archiveType)]: a zip archive is expanded into
    [expandPath], a gzipped tar archive into the download directory. *)
Definition extract `{Host} `{Unfiltered}
    (archivePath archiveType expandPath downloadDir : string) : M unit :=
  if String.eqb archiveType ".zip" then unzip archivePath expandPath
  else if String.eqb archiveType ".tgz" || String.eqb archiveType ".tar.gz"
       then untargzAll archivePath downloadDir
       else reject (RejectString ("unknown archive format " +:+ archivePath)).

(** [InstallHandler.downloadAndExtract], with [fs.chmodSync] as in the
    current generation. *)
Definition downloadAndExtract `{Host} `{Unfiltered}
    (url downloadDir osType : string) : M (option string) :=
  if negb (Js.truthy url) then ret None
  else
    let downloadDir := normalize downloadDir in
    present <- exist downloadDir ;;
    if negb present
    then reject (RejectString (downloadDir +:+ " does not exist."))
    else
      archivePath <- download url downloadDir ;;
      let expandPath := join downloadDir (expandDirOf (archiveOf url)) in
      expanded <- exist expandPath ;;
      (if negb expanded
       then extract archivePath (archiveTypeOf (archiveOf url))
                    expandPath downloadDir
       else ret tt) ;;;
      let ocBinary := join expandPath (ocBinaryName osType) in
      found <- exist ocBinary ;;
      if negb found then ret None else ret (Some ocBinary).

(** [InstallHandler.installOc] *)
Definition installOc `{Constants} `{BaseUrls} `{Host} `{Unfiltered}
    (downloadVersion osType : string) : M string :=
  downloadVersion <-
    (if negb (Js.truthy downloadVersion) then
       match latestStable osType with
       | None => reject (RejectString "Unable to determine latest oc download URL")
       | Some url => ret url
       end
     else ret downloadVersion) ;;
  ensureDirectory downloadDirectory ;;;
  let url := if isWebUri downloadVersion then Some downloadVersion
             else ocBundleURL downloadVersion osType in
  match url with
  | None => reject (RejectString "Unable to determine oc download URL.")
  | Some url =>
      ocBinary <- downloadAndExtract url downloadDirectory osType ;;
      match ocBinary with
      | None => reject (RejectString "Unable to download or extract oc binary.")
      | Some ocBinary => ret ocBinary
      end
  end.

End Legacy.

(** ** Sample host data, used to run the handler on concrete inputs *)

Definition sampleConstants : Constants :=
  {| LINUX := "linux"; MACOSX := "macosx"; OC_TAR_GZ := "oc.tar.gz" |}.

Definition sampleOcUtils : gmap string string :=
  <["oc4.1" := "4.1.18"]>
    (<["openshiftV4BaseUrl" := "https://mirror.openshift.com/pub/openshift-v4/clients/oc"]>
       (<["openshiftV3BaseUrl" := "https://mirror.openshift.com/pub/openshift-v3/clients"]> ∅)).

(** A host on which nothing is installed, every [HEAD] request on a URL
    is answered with a failure status (on no URL it is rejected), and
    every tool succeeds. *)
Definition sampleHost : Host :=
  {| ocUtils := sampleOcUtils;
     workingDirectory := Some "/agent/work";
     whichOc := None;
     execOcSync := fun _ _ => None;
     isWebUri := fun s => Js.startsWith "http://" s || Js.startsWith "https://" s;
     fetchHead := fun url => match url with Some _ => Some false | None => None end;
     mkdirExec := fun _ => true;
     curlExec := fun _ _ => true;
     extractAllTo := fun _ _ => Some [];
     decompress := fun _ _ => Some [];
     normalize := fun p => p;
     join := fun a b => if Js.truthy b then a +:+ "/" +:+ b else a |}.

(** A host with an [oc] 3.11 on the search path. *)
Definition hostWithOc : Host :=
  {| ocUtils := sampleOcUtils;
     workingDirectory := Some "/agent/work";
     whichOc := Some "/usr/bin/oc";
     execOcSync := fun _ args =>
       if String.eqb args "version"
       then Some {| stdout := "oc v3.11.0+0cbc58b"; stderr := "" |}
       else Some {| stdout := ""; stderr := "Error: unknown flag: --short" |};
     isWebUri := fun s => Js.startsWith "http://" s || Js.startsWith "https://" s;
     fetchHead := fun url => match url with Some _ => Some false | None => None end;
     mkdirExec := fun _ => true;
     curlExec := fun _ _ => true;
     extractAllTo := fun _ _ => Some [];
     decompress := fun _ _ => Some [];
     normalize := fun p => p;
     join := fun a b => if Js.truthy b then a +:+ "/" +:+ b else a |}.

Definition emptyWorld : World :=
  {| files := ∅; variables := ∅; transfers := [] |}.

(** A world in which the download directory of [sampleHost] exists. *)
Definition readyWorld : World :=
  {| files := {["/agent/work/.download"]}; variables := ∅; transfers := [] |}.

(** Sample data for the earlier generation. *)
Definition sampleBaseUrls : Legacy.BaseUrls :=
  {| Legacy.OPENSHIFT_V3_BASE_URL := "https://mirror.openshift.com/pub/openshift-v3/clients";
     Legacy.OPENSHIFT_V4_BASE_URL := "https://mirror.openshift.com/pub/openshift-v4/clients/oc" |}.

Definition sampleUnfiltered : Legacy.Unfiltered :=
  {| Legacy.decompressAll := fun _ _ => Some [] |}.

(** A world in which an archive of a format the handler does not know
    has been downloaded and expanded by hand. *)
Definition expandedWorld : World :=
  {| files := {["/agent/work/.download"; "/agent/work/.download/oc.rar";
                "/agent/work/.download/oc"; "/agent/work/.download/oc/oc"]};
     variables := ∅; transfers := [] |}.

(** * Properties *)

(** ** Strings *)

Lemma append_assoc (a b c : string) : (a +:+ b) +:+ c = a +:+ (b +:+ c).
Proof.
  induction a as [|x a IH]; [reflexivity |].
  change (String x ((a +:+ b) +:+ c) = String x (a +:+ (b +:+ c))).
  now f_equal.
Qed.

Lemma truthy_true (s : string) : Js.truthy s = true <-> s <> EmptyString.
Proof. destruct s; simpl; split; congruence. Qed.

Lemma truthy_append_slash (a b : string) : Js.truthy (a +:+ "/" +:+ b) = true.
Proof. destruct a; reflexivity. Qed.

(** ** The bundle table *)

Lemma bundle_truthy `{Constants} (osType bundle : string) :
  getOcBundleByOS osType = Some bundle -> Js.truthy bundle = true.
Proof.
  unfold getOcBundleByOS.
  repeat (destruct (String.eqb osType _));
    intros [= <-]; apply truthy_append_slash.
Qed.

Lemma bundle_unsupported `{Constants} (osType : string) :
  osType <> "Linux" -> osType <> "Darwin" -> osType <> "Windows_NT" ->
  getOcBundleByOS osType = None.
Proof.
  intros HL HD HW. unfold getOcBundleByOS.
  apply String.eqb_neq in HL, HD, HW. now rewrite HL, HD, HW.
Qed.

(** C6: the bundle lookup is a total function on strings.  Each of the
    three supported identifiers has a fixed bundle, the platform segment
    and the archive name joined by a slash; every other string gives
    [None] (null), and no input makes the lookup fail. *)
Theorem getOcBundleByOS_total `{Constants} :
  getOcBundleByOS "Linux" = Some (LINUX +:+ "/" +:+ OC_TAR_GZ)
  /\ getOcBundleByOS "Darwin" = Some (MACOSX +:+ "/" +:+ OC_TAR_GZ)
  /\ getOcBundleByOS "Windows_NT" = Some (WIN +:+ "/" +:+ OC_ZIP)
  /\ forall osType : string,
       osType <> "Linux" -> osType <> "Darwin" -> osType <> "Windows_NT" ->
       getOcBundleByOS osType = None.
Proof.
  repeat split; try reflexivity. intros. now apply bundle_unsupported.
Qed.

Lemma getOcBundleByOS_total_witness :
  @getOcBundleByOS sampleConstants "Linux" = Some "linux/oc.tar.gz"
  /\ @getOcBundleByOS sampleConstants "Windows_NT" = Some "windows/oc.zip"
  /\ @getOcBundleByOS sampleConstants "fakeOS" = None.
Proof.
  destruct (@getOcBundleByOS_total sampleConstants) as (HL & _ & HW & Hother).
  split; [exact HL | split; [exact HW |]].
  apply (Hother "fakeOS"); discriminate.
Defined.

(** ** Latest stable *)

(** C5: for a supported OS identifier [latestStable] is the v4 base URL,
    the segment [latest] and the bundle of that OS, joined by slashes (so
    for ["Linux"] the Linux bundle); for any other identifier it is
    [None]. *)
Theorem latestStable_url `{Constants} (ocUtils : gmap string string) :
  (forall osType bundle : string,
      getOcBundleByOS osType = Some bundle ->
      latestStable ocUtils osType
      = Some (V4Base ocUtils +:+ "/latest/" +:+ bundle))
  /\ latestStable ocUtils "Linux"
     = Some (V4Base ocUtils +:+ "/latest/" +:+ LINUX +:+ "/" +:+ OC_TAR_GZ)
  /\ latestStable ocUtils "Darwin"
     = Some (V4Base ocUtils +:+ "/latest/" +:+ MACOSX +:+ "/" +:+ OC_TAR_GZ)
  /\ latestStable ocUtils "Windows_NT"
     = Some (V4Base ocUtils +:+ "/latest/" +:+ WIN +:+ "/" +:+ OC_ZIP)
  /\ (forall osType : string,
        osType <> "Linux" -> osType <> "Darwin" -> osType <> "Windows_NT" ->
        latestStable ocUtils osType = None).
Proof.
  assert (Hsome : forall osType bundle : string,
             getOcBundleByOS osType = Some bundle ->
             latestStable ocUtils osType
             = Some (V4Base ocUtils +:+ "/latest/" +:+ bundle)).
  { intros osType bundle Hb. unfold latestStable. rewrite Hb.
    now rewrite (bundle_truthy _ _ Hb). }
  split; [exact Hsome |]. repeat (split; [now apply Hsome |]).
  intros osType HL HD HW. unfold latestStable.
  now rewrite bundle_unsupported.
Qed.

Lemma latestStable_url_witness :
  @latestStable sampleConstants sampleOcUtils "Darwin"
  = Some "https://mirror.openshift.com/pub/openshift-v4/clients/oc/latest/macosx/oc.tar.gz"
  /\ @latestStable sampleConstants sampleOcUtils "fakeOS" = None.
Proof.
  destruct (@latestStable_url sampleConstants sampleOcUtils)
    as (Hs & _ & _ & _ & Hn).
  split.
  - apply (Hs "Darwin" "macosx/oc.tar.gz"). reflexivity.
  - apply (Hn "fakeOS"); discriminate.
Defined.

(** ** The regular expression of the major version *)

Lemma digit_not_dot (a : ascii) : Js.isDigit a = true -> Regex.isDot a = false.
Proof.
  unfold Regex.isDot. destruct (Ascii.eqb_spec a ".") as [-> |]; [discriminate | reflexivity].
Qed.

Lemma startsWith_dot (s : string) :
  Js.startsWith "." s
  = match s with String b _ => Regex.isDot b | EmptyString => false end.
Proof.
  destruct s as [|b s]; [reflexivity |]. unfold Regex.isDot.
  rewrite (Ascii.eqb_sym b "."). cbn [Js.startsWith].
  now destruct (Ascii.eqb "." b).
Qed.

(** At a fixed position the expression matches exactly the run of digits
    that begins there, provided a dot follows the run. *)
Lemma matchHere_majorRe (s : string) :
  Regex.matchHere Regex.majorRe s
  = match s with
    | String a _ =>
        if Js.isDigit a
        then if Js.startsWith "." (snd (spanDigits s))
             then Some (fst (spanDigits s)) else None
        else None
    | EmptyString => None
    end.
Proof.
  induction s as [|a s IH]; [reflexivity |].
  change (Regex.matchHere Regex.majorRe (String a s))
    with (if Js.isDigit a
          then match Regex.matchHere Regex.majorRe s with
               | Some m => Some (String a m)
               | None => String a <$> Regex.matchHere [Regex.Ahead Regex.isDot] s
               end
          else None).
  destruct (Js.isDigit a) eqn:Ha; [| reflexivity].
  rewrite IH. cbn [spanDigits]. rewrite Ha.
  destruct s as [|b s']; [reflexivity |].
  destruct (Js.isDigit b) eqn:Hb.
  - destruct (spanDigits (String b s')) as [run rest] eqn:Hspan. cbn [fst snd].
    destruct (Js.startsWith "." rest); [reflexivity |].
    cbn. now rewrite (digit_not_dot b Hb).
  - cbn [spanDigits]. rewrite Hb. cbn [fst snd]. rewrite startsWith_dot.
    cbn. now destruct (Regex.isDot b).
Qed.

Lemma matchHere_majorRe_tail (a : ascii) (s : string) :
  Js.isDigit a = true ->
  Regex.matchHere Regex.majorRe (String a s) = None ->
  Regex.matchHere Regex.majorRe s = None.
Proof.
  intros Ha Hnone. rewrite matchHere_majorRe in Hnone |- *.
  rewrite Ha in Hnone. cbn [spanDigits] in Hnone. rewrite Ha in Hnone.
  destruct s as [|b s']; [reflexivity |].
  destruct (Js.isDigit b) eqn:Hb; [| reflexivity].
  destruct (spanDigits (String b s')) as [run rest]. cbn [fst snd] in *.
  now destruct (Js.startsWith "." rest).
Qed.

Lemma exec_skip (pat : list Regex.item) (a : ascii) (s : string) :
  Regex.matchHere pat (String a s) = None ->
  Regex.exec pat (String a s) = Regex.exec pat s.
Proof. intros Hnone. cbn [Regex.exec]. now rewrite Hnone. Qed.

Lemma exec_majorRe_scan (s : string) :
  Regex.exec Regex.majorRe s = firstRunBeforeDot false s
  /\ (Regex.matchHere Regex.majorRe s = None ->
      Regex.exec Regex.majorRe s = firstRunBeforeDot true s).
Proof.
  induction s as [|a s [IH1 IH2]]; [split; reflexivity |].
  split.
  - cbn [firstRunBeforeDot]. rewrite Bool.andb_true_r.
    destruct (Js.isDigit a) eqn:Ha.
    + destruct (Regex.matchHere Regex.majorRe (String a s)) as [m|] eqn:Hm.
      * cbn [Regex.exec]. rewrite Hm. rewrite matchHere_majorRe, Ha in Hm.
        destruct (spanDigits (String a s)) as [run rest]. cbn [fst snd] in Hm.
        now destruct (Js.startsWith "." rest).
      * rewrite (exec_skip _ _ _ Hm), (IH2 (matchHere_majorRe_tail _ _ Ha Hm)).
        rewrite matchHere_majorRe, Ha in Hm.
        destruct (spanDigits (String a s)) as [run rest]. cbn [fst snd] in Hm.
        now destruct (Js.startsWith "." rest).
    + rewrite exec_skip; [exact IH1 |]. now rewrite matchHere_majorRe, Ha.
  - intros Hnone. rewrite (exec_skip _ _ _ Hnone). cbn [firstRunBeforeDot].
    rewrite Bool.andb_false_r.
    destruct (Js.isDigit a) eqn:Ha; [| exact IH1].
    apply IH2. now apply (matchHere_majorRe_tail a).
Qed.

Lemma spanDigits_spec (s : string) :
  s = fst (spanDigits s) +:+ snd (spanDigits s)
  /\ allDigits (fst (spanDigits s)) = true.
Proof.
  induction s as [|a s [IHs IHd]]; [split; reflexivity |].
  cbn [spanDigits]. destruct (Js.isDigit a) eqn:Ha; [| split; reflexivity].
  destruct (spanDigits s) as [run rest]. cbn [fst snd] in *.
  split.
  - change (String a run +:+ rest) with (String a (run +:+ rest)). now f_equal.
  - cbn [allDigits]. now rewrite Ha, IHd.
Qed.

Lemma spanDigits_run (m post : string) :
  allDigits m = true ->
  spanDigits (m +:+ String "." post) = (m, String "." post).
Proof.
  induction m as [|a m IH]; [reflexivity |].
  cbn [allDigits]. intros [Ha Hm]%andb_prop.
  change (String a m +:+ String "." post) with (String a (m +:+ String "." post)).
  cbn [spanDigits]. now rewrite Ha, (IH Hm).
Qed.

(** The search returns a run that is maximal and followed by a dot, and
    no such run begins earlier. *)
Lemma firstRunBeforeDot_sound (s : string) :
  forall (b : bool) (m : string),
    firstRunBeforeDot b s = Some m ->
    exists pre post : string,
      digitRunAt b s pre m post
      /\ forall pre' m' post' : string,
          digitRunAt b s pre' m' post' ->
          String.length pre <= String.length pre'.
Proof.
  induction s as [|a s IH]; [discriminate |].
  intros b m. cbn [firstRunBeforeDot].
  assert (Hcons : forall pre post : string,
             (forall m' post' : string,
                 ~ digitRunAt b (String a s) EmptyString m' post') ->
             digitRunAt (Js.isDigit a) s pre m post
             /\ (forall pre' m' post' : string,
                    digitRunAt (Js.isDigit a) s pre' m' post' ->
                    String.length pre <= String.length pre') ->
             digitRunAt b (String a s) (String a pre) m post
             /\ (forall pre' m' post' : string,
                    digitRunAt b (String a s) pre' m' post' ->
                    String.length (String a pre) <= String.length pre')).
  { intros pre post Hfirst [(Hs & Hne & Hd & Hl) Hmin]. split.
    - repeat split; [| exact Hne | exact Hd | exact Hl].
      rewrite Hs. reflexivity.
    - intros [|a' pre'] m' post' Hrun; [now destruct (Hfirst m' post') |].
      destruct Hrun as (Hs' & Hne' & Hd' & Hl').
      change (String a' pre' +:+ m' +:+ String "." post')
        with (String a' (pre' +:+ m' +:+ String "." post')) in Hs'.
      injection Hs' as <- Hs'. cbn [String.length].
      apply le_n_S, (Hmin pre' m' post'). now repeat split. }
  destruct (Js.isDigit a && negb b) eqn:Hstart.
  - apply andb_prop in Hstart as [Ha Hb]. apply Bool.negb_true_iff in Hb. subst b.
    pose proof (spanDigits_spec (String a s)) as [Hsplit Hdig].
    destruct (spanDigits (String a s)) as [run rest] eqn:Hspan.
    cbn [fst snd] in *.
    destruct (Js.startsWith "." rest) eqn:Hdot.
    + intros [= <-]. destruct rest as [|c post]; [discriminate |].
      cbn [Js.startsWith] in Hdot.
      destruct (Ascii.eqb_spec "." c) as [<- |]; [| discriminate].
      exists EmptyString, post. split; [| intros; cbn; lia].
      repeat split; [exact Hsplit | | exact Hdig].
      cbn [spanDigits] in Hspan. rewrite Ha in Hspan.
      destruct (spanDigits s). injection Hspan as <- _. discriminate.
    + intros Hm. rewrite Ha in Hcons.
      destruct (IH true m Hm) as (pre & post & Hrun).
      exists (String a pre), post. apply Hcons; [| exact Hrun].
      intros m' post' (Hs' & Hne' & Hd' & _).
      change (EmptyString +:+ m' +:+ String "." post')
        with (m' +:+ String "." post') in Hs'.
      rewrite Hs', (spanDigits_run _ _ Hd') in Hspan.
      injection Hspan as <- <-. cbn in Hdot. discriminate.
  - intros Hm. destruct (IH (Js.isDigit a) m Hm) as (pre & post & Hrun).
    exists (String a pre), post. apply Hcons; [| exact Hrun].
    intros m' post' (Hs' & Hne' & Hd' & Hl'). cbn [lastIsDigit] in Hl'.
    subst b. destruct m' as [|a' m']; [contradiction |].
    change (EmptyString +:+ String a' m' +:+ String "." post')
      with (String a' (m' +:+ String "." post')) in Hs'.
    injection Hs' as <- _. cbn [allDigits] in Hd'.
    apply andb_prop in Hd' as [Ha _]. rewrite Ha in Hstart. discriminate.
Qed.

(** The search fails only when the string has no such run. *)
Lemma firstRunBeforeDot_complete (s : string) :
  forall b : bool,
    firstRunBeforeDot b s = None ->
    forall pre m post : string, ~ digitRunAt b s pre m post.
Proof.
  induction s as [|a s IH]; intros b Hnone pre m post (Hs & Hne & Hd & Hl).
  - destruct pre; [destruct m; [contradiction | discriminate] | discriminate].
  - cbn [firstRunBeforeDot] in Hnone.
    destruct pre as [|a' pre].
    + change (EmptyString +:+ m +:+ String "." post)
        with (m +:+ String "." post) in Hs.
      cbn [lastIsDigit] in Hl. subst b.
      destruct m as [|a' m]; [contradiction |].
      pose proof Hd as Hd'. cbn [allDigits] in Hd'.
      apply andb_prop in Hd' as [Ha' _].
      change (String a' m +:+ String "." post)
        with (String a' (m +:+ String "." post)) in Hs.
      injection Hs as -> Hs. rewrite Ha' in Hnone. cbn [andb negb] in Hnone.
      change (String a' s) with (String a' s) in Hnone.
      rewrite Hs in Hnone.
      change (String a' (m +:+ String "." post))
        with (String a' m +:+ String "." post) in Hnone.
      rewrite (spanDigits_run _ _ Hd) in Hnone. cbn in Hnone. discriminate.
    + change (String a' pre +:+ m +:+ String "." post)
        with (String a' (pre +:+ m +:+ String "." post)) in Hs.
      injection Hs as <- Hs. cbn [lastIsDigit] in Hl.
      destruct (Js.isDigit a && negb b) eqn:Hstart.
      * apply andb_prop in Hstart as [Ha _]. rewrite Ha in Hl.
        destruct (spanDigits (String a s)) as [run rest].
        destruct (Js.startsWith "." rest); [discriminate |].
        apply (IH true Hnone pre m post). now repeat split.
      * apply (IH (Js.isDigit a) Hnone pre m post). now repeat split.
Qed.

(** ** Version resolution *)

(** [ocBundleURL] once the version is known to be non-empty and its major
    version has been found. *)
Lemma ocBundleURL_eq `{Constants} (ocUtils : gmap string string)
    (version osType : string) (latest : bool) (m : string) :
  version <> EmptyString ->
  Regex.exec Regex.majorRe (stripV version) = Some m ->
  ocBundleURL ocUtils version osType latest
  = match (if latest then latestPatch ocUtils (stripV version)
           else Some (stripV version)) with
    | None => None
    | Some v =>
        match baseUrlFor ocUtils (Js.toNumber m) v, getOcBundleByOS osType with
        | Some url, Some bundle => Some (url +:+ bundle)
        | _, _ => None
        end
    end.
Proof.
  intros Hne Hm. unfold ocBundleURL.
  apply truthy_true in Hne. rewrite Hne. cbn [negb]. rewrite Hm.
  destruct (if latest then _ else _) as [v|]; [| reflexivity].
  destruct (baseUrlFor ocUtils (Js.toNumber m) v) as [url|]; [| reflexivity].
  destruct (getOcBundleByOS osType) as [bundle|] eqn:Hb; [| reflexivity].
  now rewrite (bundle_truthy _ _ Hb).
Qed.

Lemma baseUrlFor_other (ocUtils : gmap string string) (n : N) (v : string) :
  n <> 3%N -> n <> 4%N -> baseUrlFor ocUtils n v = None.
Proof.
  intros H3 H4. unfold baseUrlFor.
  apply N.eqb_neq in H3, H4. now rewrite H3, H4.
Qed.

(** C7: the major version selects the mirror.  With major 3 every URL the
    resolver returns is [V3Base/version/bundle], with major 4 it is
    [V4Base/version/bundle] (and for a supported OS and a version taken
    as given, that URL is returned); with any other major the result is
    [None], whatever the OS and the [latest] flag: so it is for
    ["5.0.0"]. *)
Theorem ocBundleURL_major `{Constants} (ocUtils : gmap string string) :
  (forall (version osType : string) (latest : bool) (m : string),
      version <> EmptyString ->
      Regex.exec Regex.majorRe (stripV version) = Some m ->
      (Js.toNumber m <> 3%N -> Js.toNumber m <> 4%N ->
       ocBundleURL ocUtils version osType latest = None)
      /\ (forall url : string,
             ocBundleURL ocUtils version osType latest = Some url ->
             exists v bundle : string,
               getOcBundleByOS osType = Some bundle
               /\ ((Js.toNumber m = 3%N
                    /\ url = V3Base ocUtils +:+ "/" +:+ v +:+ "/" +:+ bundle)
                   \/ (Js.toNumber m = 4%N
                       /\ url = V4Base ocUtils +:+ "/" +:+ v +:+ "/" +:+ bundle)))
      /\ (forall bundle : string,
             getOcBundleByOS osType = Some bundle ->
             (Js.toNumber m = 3%N ->
              ocBundleURL ocUtils version osType false
              = Some (V3Base ocUtils +:+ "/" +:+ stripV version +:+ "/" +:+ bundle))
             /\ (Js.toNumber m = 4%N ->
                 ocBundleURL ocUtils version osType false
                 = Some (V4Base ocUtils +:+ "/" +:+ stripV version +:+ "/" +:+ bundle))))
  /\ (forall (osType : string) (latest : bool),
         ocBundleURL ocUtils "5.0.0" osType latest = None).
Proof.
  assert (Hother : forall (version osType : string) (latest : bool) (m : string),
             version <> EmptyString ->
             Regex.exec Regex.majorRe (stripV version) = Some m ->
             Js.toNumber m <> 3%N -> Js.toNumber m <> 4%N ->
             ocBundleURL ocUtils version osType latest = None).
  { intros version osType latest m Hne Hm H3 H4.
    rewrite (ocBundleURL_eq _ _ _ _ m Hne Hm).
    destruct (if latest then _ else _) as [v|]; [| reflexivity].
    now rewrite baseUrlFor_other. }
  split.
  - intros version osType latest m Hne Hm. split; [now apply Hother |]. split.
    + intros url. rewrite (ocBundleURL_eq _ _ _ _ m Hne Hm).
      destruct (if latest then _ else _) as [v|]; [| discriminate].
      unfold baseUrlFor.
      destruct (N.eqb_spec (Js.toNumber m) 3) as [E3|N3];
        [| destruct (N.eqb_spec (Js.toNumber m) 4) as [E4|N4]; [| discriminate]];
        (destruct (getOcBundleByOS osType) as [bundle|]; [| discriminate]);
        intros [= <-]; exists v, bundle; (split; [reflexivity |]).
      * left. split; [exact E3 |]. now rewrite !append_assoc.
      * right. split; [exact E4 |]. now rewrite !append_assoc.
    + intros bundle Hb. split; intros E.
      * rewrite (ocBundleURL_eq _ _ _ _ m Hne Hm), Hb. unfold baseUrlFor.
        rewrite E. cbn. now rewrite !append_assoc.
      * rewrite (ocBundleURL_eq _ _ _ _ m Hne Hm), Hb. unfold baseUrlFor.
        rewrite E. cbn. now rewrite !append_assoc.
  - intros osType latest.
    apply (Hother "5.0.0" osType latest "5"); [discriminate | reflexivity | |];
      vm_compute; discriminate.
Qed.

Lemma ocBundleURL_major_witness :
  @ocBundleURL sampleConstants sampleOcUtils "v3.11.0" "Linux" false
  = Some "https://mirror.openshift.com/pub/openshift-v3/clients/3.11.0/linux/oc.tar.gz"
  /\ @ocBundleURL sampleConstants sampleOcUtils "4.2.0" "Darwin" false
     = Some "https://mirror.openshift.com/pub/openshift-v4/clients/oc/4.2.0/macosx/oc.tar.gz"
  /\ @ocBundleURL sampleConstants sampleOcUtils "12.0.1" "Linux" true = None.
Proof.
  destruct (@ocBundleURL_major sampleConstants sampleOcUtils) as [Hgen _].
  split; [| split].
  - destruct (Hgen "v3.11.0" "Linux" false "3") as (_ & _ & Hsel);
      [discriminate | reflexivity |].
    apply (Hsel "linux/oc.tar.gz"); reflexivity.
  - destruct (Hgen "4.2.0" "Darwin" false "4") as (_ & _ & Hsel);
      [discriminate | reflexivity |].
    apply (Hsel "macosx/oc.tar.gz"); reflexivity.
  - destruct (Hgen "12.0.1" "Linux" true "12") as (Hnone & _);
      [discriminate | reflexivity |].
    apply Hnone; vm_compute; discriminate.
Defined.

Lemma baseUrlFor_4 (ocUtils : gmap string string) (m v : string) :
  Js.toNumber m = 4%N ->
  baseUrlFor ocUtils (Js.toNumber m) v = Some (V4Base ocUtils +:+ "/" +:+ v +:+ "/").
Proof. intros ->. reflexivity. Qed.

(** C10: the major version is not anchored at the start of the string.
    [exec] of the major-version expression finds the first maximal digit
    run, anywhere in the string, that a dot follows: what it returns is
    such a run and none begins before it, and it returns nothing only
    when the string has none.  In ["3x4.1.0"] the run ["3"] is followed
    by ["x"], the major version is 4, and the URL is on the v4 mirror
    with the whole of ["3x4.1.0"] as its version segment. *)
Theorem major_not_anchored `{Constants} (ocUtils : gmap string string) :
  (forall s : string,
      Regex.exec Regex.majorRe s = firstRunBeforeDot false s)
  /\ (forall s m : string,
         Regex.exec Regex.majorRe s = Some m ->
         exists pre post : string,
           digitRunAt false s pre m post
           /\ forall pre' m' post' : string,
               digitRunAt false s pre' m' post' ->
               String.length pre <= String.length pre')
  /\ (forall s : string,
         Regex.exec Regex.majorRe s = None ->
         forall pre m post : string, ~ digitRunAt false s pre m post)
  /\ Regex.exec Regex.majorRe (stripV "3x4.1.0") = Some "4"
  /\ Js.toNumber "4" = 4%N
  /\ (forall osType bundle : string,
         getOcBundleByOS osType = Some bundle ->
         ocBundleURL ocUtils "3x4.1.0" osType false
         = Some (V4Base ocUtils +:+ "/3x4.1.0/" +:+ bundle)).
Proof.
  assert (Hscan : forall s : string,
             Regex.exec Regex.majorRe s = firstRunBeforeDot false s)
    by (intros s; apply exec_majorRe_scan).
  split; [exact Hscan |]. split.
  { intros s m. rewrite Hscan. apply firstRunBeforeDot_sound. }
  split.
  { intros s. rewrite Hscan. apply firstRunBeforeDot_complete. }
  split; [reflexivity |]. split; [reflexivity |].
  intros osType bundle Hb.
  rewrite (ocBundleURL_eq _ _ _ _ "4"); [| discriminate | reflexivity].
  rewrite Hb, baseUrlFor_4 by reflexivity.
  now rewrite append_assoc.
Qed.

Lemma major_not_anchored_witness :
  @ocBundleURL sampleConstants sampleOcUtils "3x4.1.0" "Linux" false
  = Some "https://mirror.openshift.com/pub/openshift-v4/clients/oc/3x4.1.0/linux/oc.tar.gz".
Proof.
  destruct (@major_not_anchored sampleConstants sampleOcUtils)
    as (_ & _ & _ & _ & _ & Hurl).
  apply (Hurl "Linux" "linux/oc.tar.gz"). reflexivity.
Defined.

(** ** The fallback to the latest patch release *)

(** C1, as stated, fails: with a table that knows the latest patch of
    line 4.1, the fallback resolution of ["4.1"] for ["Windows_NT"] still
    returns no URL. *)
Lemma fallback_two_component_counterexample :
  sampleOcUtils !! "oc4.1" = Some "4.1.18"
  /\ ~ exists url : string,
         @ocBundleURL sampleConstants sampleOcUtils "4.1" "Windows_NT" true
         = Some url.
Proof.
  split; [reflexivity |]. intros [url Hurl]. vm_compute in Hurl. discriminate.
Qed.

Lemma ocBundleURL_windows_v4 `{Constants} (ocUtils : gmap string string)
    (version : string) (latest : bool) (v : string) :
  version <> EmptyString ->
  Regex.exec Regex.majorRe (stripV version) = Some "4" ->
  (if latest then latestPatch ocUtils (stripV version) else Some (stripV version))
  = Some v ->
  ocBundleURL ocUtils version "Windows_NT" latest
  = Some (V4Base ocUtils +:+ "/" +:+ v +:+ "/windows/oc.zip").
Proof.
  intros Hne Hm Hv. rewrite (ocBundleURL_eq _ _ _ _ "4" Hne Hm), Hv.
  rewrite baseUrlFor_4 by reflexivity.
  change (getOcBundleByOS "Windows_NT") with (Some "windows/oc.zip").
  cbv beta iota. now rewrite !append_assoc.
Qed.

(** C1, amended: for ["4.1"] and ["Windows_NT"] the resolver first gives
    [<v4base>/4.1/windows/oc.zip]; when the probe of that URL fails, the
    one fallback attempt returns [None], because the [MAJOR.MINOR]
    pattern has to be followed by a dot.  For the three-component
    ["4.1.0"] the fallback extracts ["4.1"] and, the table holding a
    non-empty patch version under ["oc4.1"], returns
    [<v4base>/<patch>/windows/oc.zip]. *)
Theorem fallback_latest_patch `{Constants} `{Host} :
  ocBundleURL ocUtils "4.1" "Windows_NT" false
  = Some (V4Base ocUtils +:+ "/4.1/windows/oc.zip")
  /\ ocBundleURL ocUtils "4.1" "Windows_NT" true = None
  /\ (forall w : World,
         fetchHead (Some (V4Base ocUtils +:+ "/4.1/windows/oc.zip")) = Some false ->
         resolveUrl "4.1" "Windows_NT" w = (Ok None, w))
  /\ Regex.exec Regex.majorMinorRe "4.1.0" = Some "4.1"
  /\ (forall patch : string,
         ocUtils !! "oc4.1" = Some patch -> patch <> EmptyString ->
         ocBundleURL ocUtils "4.1.0" "Windows_NT" true
         = Some (V4Base ocUtils +:+ "/" +:+ patch +:+ "/windows/oc.zip")
         /\ forall w : World,
             fetchHead (Some (V4Base ocUtils +:+ "/4.1.0/windows/oc.zip"))
             = Some false ->
             resolveUrl "4.1.0" "Windows_NT" w
             = (Ok (Some (V4Base ocUtils +:+ "/" +:+ patch +:+ "/windows/oc.zip")), w)).
Proof.
  assert (H1 : ocBundleURL ocUtils "4.1" "Windows_NT" false
               = Some (V4Base ocUtils +:+ "/4.1/windows/oc.zip")).
  { apply (ocBundleURL_windows_v4 _ "4.1" false "4.1");
      [discriminate | reflexivity | reflexivity]. }
  assert (H2 : ocBundleURL ocUtils "4.1" "Windows_NT" true = None).
  { now rewrite (ocBundleURL_eq _ _ _ _ "4"); [| discriminate | reflexivity]. }
  assert (H3 : ocBundleURL ocUtils "4.1.0" "Windows_NT" false
               = Some (V4Base ocUtils +:+ "/4.1.0/windows/oc.zip")).
  { apply (ocBundleURL_windows_v4 _ "4.1.0" false "4.1.0");
      [discriminate | reflexivity | reflexivity]. }
  split; [exact H1 |]. split; [exact H2 |]. split.
  { intros w Hhead. unfold resolveUrl. now rewrite H1, Hhead, H2. }
  split; [reflexivity |].
  intros patch Hpatch Hne.
  assert (H4 : ocBundleURL ocUtils "4.1.0" "Windows_NT" true
               = Some (V4Base ocUtils +:+ "/" +:+ patch +:+ "/windows/oc.zip")).
  { apply (ocBundleURL_windows_v4 _ "4.1.0" true patch);
      [discriminate | reflexivity |].
    unfold latestPatch.
    change (Regex.exec Regex.majorMinorRe (stripV "4.1.0")) with (Some "4.1").
    cbv beta iota. change ("oc" +:+ "4.1") with "oc4.1". rewrite Hpatch.
    apply truthy_true in Hne. cbn [Js.truthyOpt]. now rewrite Hne. }
  split; [exact H4 |].
  intros w Hhead. unfold resolveUrl. now rewrite H3, Hhead, H4.
Qed.

Lemma fallback_latest_patch_witness :
  @resolveUrl sampleConstants sampleHost "4.1" "Windows_NT" emptyWorld
  = (Ok None, emptyWorld)
  /\ @resolveUrl sampleConstants sampleHost "4.1.0" "Windows_NT" emptyWorld
     = (Ok (Some "https://mirror.openshift.com/pub/openshift-v4/clients/oc/4.1.18/windows/oc.zip"),
        emptyWorld).
Proof.
  destruct (@fallback_latest_patch sampleConstants sampleHost)
    as (_ & _ & Hnone & _ & Hpatch).
  split.
  - apply Hnone. reflexivity.
  - destruct (Hpatch "4.1.18") as [_ Hres]; [reflexivity | discriminate |].
    apply Hres. reflexivity.
Defined.

(** ** Reuse of a local [oc] *)

Lemma matchHere_One (c : ascii -> bool) (pat : list Regex.item) (s m : string) :
  Regex.matchHere (Regex.One c :: pat) s = Some m ->
  exists (a : ascii) (m' : string), m = String a m' /\ c a = true.
Proof.
  destruct s as [|a s]; [discriminate |]. cbn [Regex.matchHere].
  destruct (c a) eqn:Hc; [| discriminate].
  destruct (Regex.matchHere pat s) as [m'|]; [| discriminate].
  intros [= <-]. now exists a, m'.
Qed.

Lemma exec_One (c : ascii -> bool) (pat : list Regex.item) (s m : string) :
  Regex.exec (Regex.One c :: pat) s = Some m ->
  exists (a : ascii) (m' : string), m = String a m' /\ c a = true.
Proof.
  induction s as [|b s IH]; cbn [Regex.exec];
    destruct (Regex.matchHere (Regex.One c :: pat) _) as [m0|] eqn:Hm.
  - intros [= <-]. now apply matchHere_One in Hm.
  - discriminate.
  - intros [= <-]. now apply matchHere_One in Hm.
  - exact IH.
Qed.

(** What [getOcVersion] extracts always begins with the letter [v]. *)
Lemma getOcVersion_v `{Host} (ocPath localOcVersion : string) :
  getOcVersion ocPath = Some localOcVersion ->
  exists rest : string, localOcVersion = String "v" rest.
Proof.
  unfold getOcVersion.
  destruct (match execOcSync ocPath "version --short=true --client=true" with
            | Some r => _ | None => _ end) as [r|]; [| discriminate].
  destruct (Js.truthy (stdout r)); [| discriminate].
  intros Hexec. apply exec_One in Hexec as (a & rest & -> & Ha).
  exists rest. unfold Regex.isV in Ha. now apply Ascii.eqb_eq in Ha as ->.
Qed.

Lemma toLowerCase_v (rest version : string) :
  Js.toLowerCase (String "v" rest) = Js.toLowerCase version ->
  Js.startsWith "v" (Js.toLowerCase version) = true.
Proof. intros <-. reflexivity. Qed.

(** C9: local reuse compares versions as strings, ignoring case.  With a
    version requested and an [oc] found, [getLocalOcPath] returns the
    path exactly when the version extracted from the tool's output
    equals the requested one once both are lower-cased.  The extracted
    version begins with [v], so a request that does not (["4.1.0"])
    never matches and reuse is skipped.  With no version requested the
    path found is returned as it is. *)
Theorem getLocalOcPath_version_match `{Host} :
  (forall version p : string,
      version <> EmptyString -> whichOc = Some p -> p <> EmptyString ->
      (getLocalOcPath version = Some p
       <-> exists localOcVersion : string,
             getOcVersion p = Some localOcVersion
             /\ Js.toLowerCase localOcVersion = Js.toLowerCase version)
      /\ (getLocalOcPath version = Some p \/ getLocalOcPath version = None))
  /\ (forall p localOcVersion : string,
         getOcVersion p = Some localOcVersion ->
         Js.startsWith "v" localOcVersion = true)
  /\ (forall version : string,
         version <> EmptyString ->
         Js.startsWith "v" (Js.toLowerCase version) = false ->
         Js.truthyOpt (getLocalOcPath version) = false)
  /\ Js.startsWith "v" (Js.toLowerCase "4.1.0") = false
  /\ getLocalOcPath EmptyString = whichOc.
Proof.
  split; [| split; [| split; [| split]]].
  - intros version p Hv Hp Hpne. unfold getLocalOcPath. rewrite Hp.
    apply truthy_true in Hv, Hpne. rewrite Hv, Hpne. cbn [andb].
    destruct (getOcVersion p) as [lv|] eqn:Hlv.
    + destruct (getOcVersion_v _ _ Hlv) as [rest ->]. cbn [Js.truthy negb orb].
      destruct (String.eqb_spec (Js.toLowerCase (String "v" rest))
                                (Js.toLowerCase version)) as [E|NE]; cbn [negb].
      * split; [| now left]. split; [| reflexivity].
        intros _. now exists (String "v" rest).
      * split; [| now right]. split; [discriminate |].
        intros (lv' & [= <-] & E). contradiction.
    + split; [| now right]. split; [discriminate |].
      intros (lv' & Hsome & _). discriminate.
  - intros p lv Hlv. now destruct (getOcVersion_v _ _ Hlv) as [rest ->].
  - intros version Hv Hnov. unfold getLocalOcPath.
    destruct whichOc as [p|]; [| reflexivity].
    apply truthy_true in Hv. rewrite Hv. cbn [andb].
    destruct (Js.truthy p) eqn:Hp; [| exact Hp].
    destruct (getOcVersion p) as [lv|] eqn:Hlv; [| reflexivity].
    destruct (getOcVersion_v _ _ Hlv) as [rest ->]. cbn [Js.truthy negb orb].
    destruct (String.eqb_spec (Js.toLowerCase (String "v" rest))
                              (Js.toLowerCase version)) as [E|NE];
      [| reflexivity].
    apply toLowerCase_v in E. congruence.
  - reflexivity.
  - unfold getLocalOcPath. now destruct whichOc.
Qed.

Lemma getLocalOcPath_version_match_witness :
  @getLocalOcPath hostWithOc "V3.11.0" = Some "/usr/bin/oc"
  /\ Js.truthyOpt (@getLocalOcPath hostWithOc "3.11.0") = false.
Proof.
  destruct (@getLocalOcPath_version_match hostWithOc) as (Hiff & _ & Hskip & _).
  split.
  - destruct (Hiff "V3.11.0" "/usr/bin/oc") as [[_ Hyes] _];
      [discriminate | reflexivity | discriminate |].
    apply Hyes. exists "v3.11.0". split; reflexivity.
  - apply Hskip; [discriminate | reflexivity].
Defined.

(** ** PATH registration *)

Lemma lastIndexOf_append (c : ascii) (d f : string) :
  Js.lastIndexOf c f = (-1)%Z ->
  Js.lastIndexOf c (d +:+ String c f) = Z.of_nat (String.length d).
Proof.
  intros Hf. induction d as [|a d IH].
  - change (EmptyString +:+ String c f) with (String c f).
    cbn [Js.lastIndexOf String.length]. rewrite Hf.
    cbn. now rewrite Ascii.eqb_refl.
  - change (String a d +:+ String c f) with (String a (d +:+ String c f)).
    cbn [Js.lastIndexOf String.length]. rewrite IH.
    destruct (Z.leb_spec 0 (Z.of_nat (String.length d))); lia.
Qed.

Lemma takeStr_append (d x : string) : Js.takeStr (String.length d) (d +:+ x) = d.
Proof.
  induction d as [|a d IH]; [reflexivity |].
  change (String a d +:+ x) with (String a (d +:+ x)).
  cbn [String.length Js.takeStr]. now rewrite IH.
Qed.

(** The directory part is what stands before the last separator. *)
Lemma dirOf_append (sep : ascii) (d f : string) :
  Js.lastIndexOf sep f = (-1)%Z -> dirOf sep (d +:+ String sep f) = d.
Proof.
  intros Hf. unfold dirOf, Js.substr0. rewrite (lastIndexOf_append _ _ _ Hf).
  rewrite Nat2Z.id. apply takeStr_append.
Qed.

(** C4: [addOcToPath] is rejected exactly when the path is null or
    empty, and then with an [Error] whose message is "path cannot be null
    or empty".  For every other path it succeeds and sets PATH to the
    directory of the path (what precedes its last backslash for
    ["Windows_NT"], its last slash otherwise), the list separator ([;]
    for ["Windows_NT"], [:] otherwise) and the former PATH. *)
Theorem addOcToPath_spec (ocPath : option string) (osType : string) (w : World) :
  (fst (addOcToPath ocPath osType w)
   = Err (RejectError "path cannot be null or empty")
   <-> ocPath = None \/ ocPath = Some EmptyString)
  /\ ((exists e : rejection, fst (addOcToPath ocPath osType w) = Err e)
      <-> ocPath = None \/ ocPath = Some EmptyString)
  /\ (forall p : string,
         ocPath = Some p -> p <> EmptyString ->
         let sep := if String.eqb osType "Windows_NT" then "\"%char else "/"%char in
         let listSep := if String.eqb osType "Windows_NT" then ";" else ":" in
         addOcToPath ocPath osType w
         = (Ok tt,
            {| files := files w;
               variables :=
                 <["PATH" := dirOf sep p +:+ listSep +:+ Js.str (variables w !! "PATH")]>
                   (variables w);
               transfers := transfers w |})
         /\ forall d f : string,
             p = d +:+ String sep f -> Js.lastIndexOf sep f = (-1)%Z ->
             dirOf sep p = d).
Proof.
  destruct ocPath as [[|a p]|].
  - split; [| split].
    + split; [now right | reflexivity].
    + split; [now right | intros _; now eexists].
    + intros p [= <-] Hne. contradiction.
  - assert (Hrun : fst (addOcToPath (Some (String a p)) osType w) = Ok tt).
    { unfold addOcToPath. now destruct (String.eqb osType "Windows_NT"). }
    split; [| split].
    + rewrite Hrun. split; [discriminate | intros [|]; discriminate].
    + rewrite Hrun. split; [intros [e He]; discriminate | intros [|]; discriminate].
    + intros p' [= <-] _. cbv zeta. split.
      * unfold addOcToPath. now destruct (String.eqb osType "Windows_NT").
      * intros d f -> Hf. now apply dirOf_append.
  - split; [| split].
    + split; [now left | reflexivity].
    + split; [now left | intros _; now eexists].
    + intros p [=].
Qed.

Lemma addOcToPath_spec_witness :
  addOcToPath (Some "/a/b/oc") "Linux"
    {| files := ∅; variables := {["PATH" := "/usr/bin"]}; transfers := [] |}
  = (Ok tt, {| files := ∅;
               variables := <["PATH" := "/a/b:/usr/bin"]> {["PATH" := "/usr/bin"]};
               transfers := [] |})
  /\ dirOf "\" "D:\a\oc.exe" = "D:\a"
  /\ fst (addOcToPath None "Linux" emptyWorld)
     = Err (RejectError "path cannot be null or empty")
  /\ fst (addOcToPath (Some "") "Linux" emptyWorld)
     = Err (RejectError "path cannot be null or empty").
Proof.
  split; [| split; [| split]].
  - destruct (addOcToPath_spec (Some "/a/b/oc") "Linux"
                {| files := ∅; variables := {["PATH" := "/usr/bin"]};
                   transfers := [] |}) as (_ & _ & Hset).
    destruct (Hset "/a/b/oc") as [Hrun _]; [reflexivity | discriminate |].
    exact Hrun.
  - destruct (addOcToPath_spec (Some "D:\a\oc.exe") "Windows_NT" emptyWorld)
      as (_ & _ & Hset).
    destruct (Hset "D:\a\oc.exe") as [_ Hdir]; [reflexivity | discriminate |].
    apply (Hdir "D:\a" "oc.exe"); reflexivity.
  - apply (addOcToPath_spec None "Linux" emptyWorld). now left.
  - apply (addOcToPath_spec (Some "") "Linux" emptyWorld). now right.
Defined.

(** ** The fetcher/extractor *)

Lemma exist_run `{Host} (p : string) (w : World) :
  exist p w = (Ok (bool_decide (normalize p ∈ files w)), w).
Proof. reflexivity. Qed.

(** With the archive in place the download step does nothing. *)
Lemma download_present `{Host} (url downloadDir : string) (w : World) :
  normalize (join downloadDir (archiveOf url)) ∈ files w ->
  download url downloadDir w = (Ok (join downloadDir (archiveOf url)), w).
Proof.
  intros Hin. unfold download, bind. rewrite exist_run.
  now rewrite (bool_decide_eq_true_2 _ Hin).
Qed.

(** Without it [curl] is run once. *)
Lemma download_absent `{Host} (url downloadDir : string) (w : World) :
  normalize (join downloadDir (archiveOf url)) ∉ files w ->
  download url downloadDir w
  = let archivePath := join downloadDir (archiveOf url) in
    let w' := {| files := files w; variables := variables w;
                 transfers := url :: transfers w |} in
    if curlExec archivePath url then (Ok archivePath, createFile archivePath w')
    else (Err (RejectTool "curl"), w').
Proof.
  intros Hout. unfold download, bind. rewrite exist_run.
  rewrite (bool_decide_eq_false_2 _ Hout). cbn [negb]. unfold curl.
  now destruct (curlExec _ _).
Qed.

(** Extraction only adds files and performs no transfer. *)
Lemma extract_frame `{Host} (archivePath archiveType dir : string) (w : World) :
  files w ⊆ files (snd (extract archivePath archiveType dir w))
  /\ transfers (snd (extract archivePath archiveType dir w)) = transfers w.
Proof.
  unfold extract, unzip, untargz, reject.
  destruct (String.eqb archiveType ".zip");
    [destruct (extractAllTo archivePath dir) |
     destruct (String.eqb archiveType ".tgz" || String.eqb archiveType ".tar.gz");
     [destruct (decompress archivePath dir) |]];
    cbn; split; try reflexivity; set_solver.
Qed.

Lemma extract_unknown `{Host} (archivePath archiveType dir : string) (w : World) :
  archiveType <> ".zip" -> archiveType <> ".tgz" -> archiveType <> ".tar.gz" ->
  extract archivePath archiveType dir w
  = (Err (RejectString ("unknown archive format " +:+ archivePath)), w).
Proof.
  intros Hz Ht Hg. unfold extract.
  apply String.eqb_neq in Hz, Ht, Hg. now rewrite Hz, Ht, Hg.
Qed.

(** [downloadAndExtract] for a non-empty URL and an existing directory,
    step by step. *)
Lemma downloadAndExtract_run `{Host} (url downloadDir osType : string) (w : World) :
  url <> EmptyString ->
  normalize (normalize downloadDir) ∈ files w ->
  downloadAndExtract url downloadDir osType w
  = let dir := normalize downloadDir in
    match download url dir w with
    | (Ok archivePath, w1) =>
        match extract archivePath (archiveTypeOf (archiveOf url)) dir w1 with
        | (Ok _, w2) =>
            let ocBinary := join dir (ocBinaryName osType) in
            (Ok (if bool_decide (normalize ocBinary ∈ files w2)
                 then Some ocBinary else None), w2)
        | (Err e, w2) => (Err e, w2)
        end
    | (Err e, w1) => (Err e, w1)
    end.
Proof.
  intros Hurl Hdir. unfold downloadAndExtract.
  apply truthy_true in Hurl. rewrite Hurl. cbn [negb].
  unfold bind at 1. rewrite exist_run, (bool_decide_eq_true_2 _ Hdir).
  cbn [negb]. unfold bind at 1. cbv zeta.
  destruct (download url (normalize downloadDir) w) as [[archivePath|e] w1];
    [| reflexivity].
  unfold bind at 1.
  destruct (extract archivePath _ (normalize downloadDir) w1) as [[[]|e] w2];
    [| reflexivity].
  unfold bind. rewrite exist_run.
  now destruct (bool_decide _).
Qed.

(** The derived type looks at the last two extensions only: a name that
    ends in [.tar] once its extension is removed is typed [.tar.gz]
    whatever that extension was, and [replace] removes the first
    occurrence of the extension, not the last. *)
Example archiveTypeOf_examples :
  archiveTypeOf "openshift-origin-client-tools-v3.11.0-0cbc58b-mac.zip" = ".zip"
  /\ archiveTypeOf "oc.tar.bz2" = ".tar.gz"
  /\ archiveTypeOf "oc.gz.tar.gz" = ".gz"
  /\ archiveTypeOf "oc" = EmptyString.
Proof. repeat split; reflexivity. Qed.

(** C8 does not hold of the code: the archive type is not the extension
    of the archive.  [oc.tar.bz2] has the extension [.bz2], none of
    [.zip], [.tgz] and [.tar.gz], yet it is typed [.tar.gz] because the
    name without its extension ends in [.tar]: with the archive in an
    existing directory, [downloadAndExtract] runs the gzip/tar
    extraction on it and is not rejected with "unknown archive format";
    when that extraction does not fail and leaves no executable, the
    call resolves to null.  In the other
    direction [oc.gz.tar.gz], a [.tar.gz] name, is typed [.gz], the
    first [.gz] being the one removed, and is rejected with "unknown
    archive format" followed by the archive path. *)
Theorem archive_type_slips `{Host} (downloadDir osType : string) (w : World) :
  let dir := normalize downloadDir in
  normalize dir ∈ files w ->
  (let url := "https://example.com/files/oc.tar.bz2" in
   let archivePath := join dir "oc.tar.bz2" in
   archiveOf url = "oc.tar.bz2"
   /\ NodePath.extname "oc.tar.bz2" = ".bz2"
   /\ archiveTypeOf "oc.tar.bz2" = ".tar.gz"
   /\ (normalize archivePath ∈ files w \/ curlExec archivePath url = true ->
       fst (downloadAndExtract url downloadDir osType w)
       <> Err (RejectString ("unknown archive format " +:+ archivePath))
       /\ (forall entries : list string,
              decompress archivePath dir = Some entries ->
              normalize (join dir (ocBinaryName osType))
              ∉ files (snd (downloadAndExtract url downloadDir osType w)) ->
              fst (downloadAndExtract url downloadDir osType w) = Ok None)))
  /\ (let url := "https://example.com/files/oc.gz.tar.gz" in
      let archivePath := join dir "oc.gz.tar.gz" in
      archiveOf url = "oc.gz.tar.gz"
      /\ archiveTypeOf "oc.gz.tar.gz" = ".gz"
      /\ (normalize archivePath ∈ files w \/ curlExec archivePath url = true ->
          fst (downloadAndExtract url downloadDir osType w)
          = Err (RejectString ("unknown archive format " +:+ archivePath)))).
Proof.
  intros dir Hdir. subst dir. split.
  - cbv zeta. do 3 (split; [reflexivity |]). intros Harchive.
    rewrite downloadAndExtract_run; [| discriminate | exact Hdir]. cbv zeta.
    change (archiveOf "https://example.com/files/oc.tar.bz2") with "oc.tar.bz2".
    change (archiveTypeOf "oc.tar.bz2") with ".tar.gz".
    assert (Hdown : exists w1 : World,
               download "https://example.com/files/oc.tar.bz2"
                        (normalize downloadDir) w
               = (Ok (join (normalize downloadDir) "oc.tar.bz2"), w1)).
    { destruct (decide (normalize (join (normalize downloadDir) "oc.tar.bz2")
                        ∈ files w)) as [Hin|Hout].
      - exists w.
        exact (download_present "https://example.com/files/oc.tar.bz2"
                 (normalize downloadDir) w Hin).
      - destruct Harchive as [Hin|Hcurl]; [contradiction |].
        eexists.
        rewrite (download_absent "https://example.com/files/oc.tar.bz2"
                   (normalize downloadDir) w Hout). cbv zeta.
        change (archiveOf "https://example.com/files/oc.tar.bz2")
          with "oc.tar.bz2".
        now rewrite Hcurl. }
    destruct Hdown as [w1 ->].
    change (extract (join (normalize downloadDir) "oc.tar.bz2") ".tar.gz"
                    (normalize downloadDir) w1)
      with (untargz (join (normalize downloadDir) "oc.tar.bz2")
                    (normalize downloadDir) w1).
    unfold untargz.
    destruct (decompress (join (normalize downloadDir) "oc.tar.bz2")
                         (normalize downloadDir)) as [entries|].
    + split; [discriminate |]. intros _ _. cbn [fst snd]. intros Hnone.
      now rewrite (bool_decide_eq_false_2 _ Hnone).
    + split; [discriminate | discriminate].
  - cbv zeta. do 2 (split; [reflexivity |]). intros Harchive.
    rewrite downloadAndExtract_run; [| discriminate | exact Hdir]. cbv zeta.
    change (archiveOf "https://example.com/files/oc.gz.tar.gz")
      with "oc.gz.tar.gz".
    change (archiveTypeOf "oc.gz.tar.gz") with ".gz".
    destruct (decide (normalize (join (normalize downloadDir) "oc.gz.tar.gz")
                      ∈ files w)) as [Hin|Hout].
    + pose proof (download_present "https://example.com/files/oc.gz.tar.gz"
                    (normalize downloadDir) w) as Hdown.
      change (archiveOf "https://example.com/files/oc.gz.tar.gz")
        with "oc.gz.tar.gz" in Hdown.
      now rewrite (Hdown Hin).
    + destruct Harchive as [Hin|Hcurl]; [contradiction |].
      pose proof (download_absent "https://example.com/files/oc.gz.tar.gz"
                    (normalize downloadDir) w) as Hdown.
      change (archiveOf "https://example.com/files/oc.gz.tar.gz")
        with "oc.gz.tar.gz" in Hdown.
      rewrite (Hdown Hout). cbv zeta. now rewrite Hcurl.
Qed.

Lemma archive_type_slips_witness :
  fst (@downloadAndExtract sampleHost "https://example.com/files/oc.tar.bz2"
         "/agent/work/.download" "Linux" readyWorld)
  = Ok None
  /\ fst (@downloadAndExtract sampleHost "https://example.com/files/oc.gz.tar.gz"
            "/agent/work/.download" "Linux" readyWorld)
     = Err (RejectString
              "unknown archive format /agent/work/.download/oc.gz.tar.gz").
Proof.
  destruct (@archive_type_slips sampleHost "/agent/work/.download" "Linux"
              readyWorld) as [(_ & _ & _ & Hbz2) (_ & _ & Hgz)].
  - change ("/agent/work/.download"
            ∈ ({["/agent/work/.download"]} : gset string)).
    now apply elem_of_singleton.
  - split.
    + destruct Hbz2 as [_ Hnull]; [right; reflexivity |].
      apply (Hnull [] eq_refl). vm_compute. discriminate.
    + apply Hgz. right. reflexivity.
Defined.

(** A call of [downloadAndExtract] leaves the transfers alone when the
    archive is already in the directory. *)
Lemma downloadAndExtract_skip `{Host} (url downloadDir osType : string) (w : World) :
  normalize (join (normalize downloadDir) (archiveOf url)) ∈ files w ->
  transfers (snd (downloadAndExtract url downloadDir osType w)) = transfers w.
Proof.
  intros Hin.
  destruct (Js.truthy url) eqn:Hurl;
    [| unfold downloadAndExtract; now rewrite Hurl].
  apply truthy_true in Hurl.
  destruct (decide (normalize (normalize downloadDir) ∈ files w)) as [Hdir|Hdir].
  - rewrite (downloadAndExtract_run _ _ _ _ Hurl Hdir). cbv zeta.
    rewrite (download_present _ _ _ Hin).
    pose proof (extract_frame (join (normalize downloadDir) (archiveOf url))
                  (archiveTypeOf (archiveOf url)) (normalize downloadDir) w)
      as [_ Htr].
    now destruct (extract _ _ _ w) as [[[]|e] w2].
  - unfold downloadAndExtract. apply truthy_true in Hurl. rewrite Hurl.
    cbn [negb]. unfold bind. rewrite exist_run.
    now rewrite (bool_decide_eq_false_2 _ Hdir).
Qed.

(** After a call that was not stopped by a failing transfer, either the
    archive is in the directory, or the call did not get as far as the
    download and left the world as it was. *)
Lemma downloadAndExtract_first `{Host} (url downloadDir osType : string) (w : World) :
  fst (downloadAndExtract url downloadDir osType w) <> Err (RejectTool "curl") ->
  let w1 := snd (downloadAndExtract url downloadDir osType w) in
  (w1 = w
   \/ normalize (join (normalize downloadDir) (archiveOf url)) ∈ files w1)
  /\ (transfers w1 = transfers w \/ transfers w1 = url :: transfers w).
Proof.
  intros Hok. cbv zeta.
  destruct (Js.truthy url) eqn:Hurl;
    [| unfold downloadAndExtract; rewrite Hurl; split; now left].
  apply truthy_true in Hurl.
  destruct (decide (normalize (normalize downloadDir) ∈ files w)) as [Hdir|Hdir].
  - rewrite (downloadAndExtract_run _ _ _ _ Hurl Hdir) in Hok |- *. cbv zeta in *.
    destruct (decide (normalize (join (normalize downloadDir) (archiveOf url))
                      ∈ files w)) as [Hin|Hout].
    + rewrite (download_present _ _ _ Hin) in Hok |- *.
      pose proof (extract_frame (join (normalize downloadDir) (archiveOf url))
                    (archiveTypeOf (archiveOf url)) (normalize downloadDir) w)
        as [Hfiles Htr].
      destruct (extract _ _ _ w) as [[[]|e] w2]; cbn [snd] in *;
        (split; [right; set_solver | now left]).
    + rewrite (download_absent _ _ _ Hout) in Hok |- *. cbv zeta in *.
      destruct (curlExec _ url); [| now contradiction Hok].
      match goal with
      | |- context [extract ?p ?t ?d ?w0] =>
          pose proof (extract_frame p t d w0) as [Hfiles Htr];
          destruct (extract p t d w0) as [[[]|e] w2]
      end; cbn [snd createFile files transfers] in *;
        (split; [right; set_solver | now right]).
  - unfold downloadAndExtract. apply truthy_true in Hurl. rewrite Hurl.
    cbn [negb]. unfold bind. rewrite exist_run.
    rewrite (bool_decide_eq_false_2 _ Hdir). split; now left.
Qed.

(** C3: the download is idempotent.  With the archive already in the
    directory the transfer is skipped and the world is left as it is.
    When the download step has returned an archive path, running it
    again on the resulting world returns the same path and transfers
    nothing, so that both runs together transfer at most once.  The same
    holds of two calls of [downloadAndExtract] when the first was not
    stopped by a failing transfer. *)
Theorem download_idempotent `{Host} (url downloadDir : string) (w : World) :
  (normalize (join downloadDir (archiveOf url)) ∈ files w ->
   download url downloadDir w = (Ok (join downloadDir (archiveOf url)), w))
  /\ (forall (archivePath : string) (w1 : World),
         download url downloadDir w = (Ok archivePath, w1) ->
         archivePath = join downloadDir (archiveOf url)
         /\ download url downloadDir w1 = (Ok archivePath, w1)
         /\ (transfers w1 = transfers w \/ transfers w1 = url :: transfers w))
  /\ (forall osType : string,
         (normalize (join (normalize downloadDir) (archiveOf url)) ∈ files w ->
          transfers (snd (downloadAndExtract url downloadDir osType w))
          = transfers w)
         /\ (fst (downloadAndExtract url downloadDir osType w)
             <> Err (RejectTool "curl") ->
             let w1 := snd (downloadAndExtract url downloadDir osType w) in
             transfers (snd (downloadAndExtract url downloadDir osType w1))
             = transfers w1
             /\ (transfers w1 = transfers w \/ transfers w1 = url :: transfers w))).
Proof.
  split; [apply download_present |]. split.
  - intros archivePath w1 Hrun.
    destruct (decide (normalize (join downloadDir (archiveOf url)) ∈ files w))
      as [Hin|Hout].
    + rewrite (download_present _ _ _ Hin) in Hrun. injection Hrun as <- <-.
      split; [reflexivity |]. split; [now apply download_present | now left].
    + rewrite (download_absent _ _ _ Hout) in Hrun. cbv zeta in Hrun.
      destruct (curlExec _ url); [| discriminate]. injection Hrun as <- <-.
      split; [reflexivity |]. split; [| now right].
      apply download_present. cbn. set_solver.
  - intros osType. split; [apply downloadAndExtract_skip |].
    intros Hok. cbv zeta.
    destruct (downloadAndExtract_first _ _ _ _ Hok) as [[Hsame|Hin] Htr].
    + split; [| exact Htr]. rewrite Hsame. now rewrite Hsame.
    + split; [| exact Htr]. now apply downloadAndExtract_skip.
Qed.

Lemma download_idempotent_witness :
  let call := @downloadAndExtract sampleHost "https://example.com/files/oc.zip"
                "/agent/work/.download" "Linux" in
  let w1 := snd (call readyWorld) in
  transfers (snd (call w1)) = transfers w1
  /\ (transfers w1 = transfers readyWorld
      \/ transfers w1 = "https://example.com/files/oc.zip" :: transfers readyWorld).
Proof.
  cbv zeta.
  destruct (@download_idempotent sampleHost "https://example.com/files/oc.zip"
              "/agent/work/.download" readyWorld) as (_ & _ & Hcalls).
  destruct (Hcalls "Linux") as [_ Htwice].
  apply Htwice. vm_compute. discriminate.
Defined.

(** ** The install orchestration *)

(** C2, as stated, fails: with no version given and an unsupported OS
    the latest-stable resolution is null, and the rejection carries the
    handler's own wording, not "unable to determine latest download
    URL". *)
Lemma installOc_message_counterexample :
  @latestStable sampleConstants (@ocUtils sampleHost) "fakeOS" = None
  /\ fst (@installOc sampleConstants sampleHost "" "fakeOS" false emptyWorld)
     = Err (RejectString "Unable to determine latest oc download URL")
  /\ fst (@installOc sampleConstants sampleHost "" "fakeOS" false emptyWorld)
     <> Err (RejectString "unable to determine latest download URL").
Proof.
  split; [reflexivity |]. split; [reflexivity |].
  vm_compute. discriminate.
Qed.

(** C2, amended: when no local [oc] is reused, [installOc] is rejected
    with "Unable to determine latest oc download URL" when no version is
    given and the latest-stable resolution is null; with "Unable to
    determine oc download URL." when the URL chosen for the version is
    null, as it is when the probe of the first URL fails and the
    fallback resolution is null; and with "Unable to download or extract
    oc binary." when [downloadAndExtract] returns null. *)
Theorem installOc_rejections `{Constants} `{Host}
    (downloadVersion osType : string) (useLocalOc : bool) (w : World) :
  Js.truthyOpt (if useLocalOc then getLocalOcPath downloadVersion else None)
  = false ->
  (downloadVersion = EmptyString -> latestStable ocUtils osType = None ->
   installOc downloadVersion osType useLocalOc w
   = (Err (RejectString "Unable to determine latest oc download URL"), w))
  /\ (forall (version : string) (w1 w2 : World),
         pickVersion downloadVersion osType w = (Ok version, w1) ->
         ensureDirectory downloadDirectory w1 = (Ok tt, w2) ->
         (forall w3 : World,
             chooseUrl version osType w2 = (Ok None, w3) ->
             installOc downloadVersion osType useLocalOc w
             = (Err (RejectString "Unable to determine oc download URL."), w3))
         /\ (isWebUri version = false ->
             fetchHead (ocBundleURL ocUtils version osType false) = Some false ->
             ocBundleURL ocUtils version osType true = None ->
             installOc downloadVersion osType useLocalOc w
             = (Err (RejectString "Unable to determine oc download URL."), w2))
         /\ (forall (url : string) (w3 w4 : World),
                chooseUrl version osType w2 = (Ok (Some url), w3) ->
                downloadAndExtract url downloadDirectory osType w3 = (Ok None, w4) ->
                installOc downloadVersion osType useLocalOc w
                = (Err (RejectString "Unable to download or extract oc binary."), w4))).
Proof.
  intros Hlocal. split.
  - intros -> Hlatest. unfold installOc. rewrite Hlocal.
    unfold bind at 1. unfold pickVersion. cbn [Js.truthy negb].
    now rewrite Hlatest.
  - intros version w1 w2 Hpick Hdir.
    assert (Hnull : forall w3 : World,
               chooseUrl version osType w2 = (Ok None, w3) ->
               installOc downloadVersion osType useLocalOc w
               = (Err (RejectString "Unable to determine oc download URL."), w3)).
    { intros w3 Hurl. unfold installOc. rewrite Hlocal.
      unfold bind. now rewrite Hpick, Hdir, Hurl. }
    split; [exact Hnull | split].
    + intros Hweb Hhead Hfallback. apply Hnull.
      unfold chooseUrl, resolveUrl. now rewrite Hweb, Hhead, Hfallback.
    + intros url w3 w4 Hurl Hextract. unfold installOc. rewrite Hlocal.
      unfold bind. now rewrite Hpick, Hdir, Hurl, Hextract.
Qed.

Lemma installOc_rejections_witness :
  @installOc sampleConstants sampleHost "" "fakeOS" true emptyWorld
  = (Err (RejectString "Unable to determine latest oc download URL"), emptyWorld)
  /\ @installOc sampleConstants sampleHost "4.1" "Windows_NT" true readyWorld
     = (Err (RejectString "Unable to determine oc download URL."), readyWorld)
  /\ fst (@installOc sampleConstants sampleHost "https://example.com/files/oc.zip"
            "Linux" true readyWorld)
     = Err (RejectString "Unable to download or extract oc binary.").
Proof.
  split; [| split].
  - apply (@installOc_rejections sampleConstants sampleHost "" "fakeOS" true emptyWorld);
      reflexivity.
  - destruct (@installOc_rejections sampleConstants sampleHost "4.1" "Windows_NT"
                true readyWorld eq_refl) as [_ Hsteps].
    destruct (Hsteps "4.1" readyWorld readyWorld) as (_ & Hfallback & _);
      [reflexivity | reflexivity |].
    apply Hfallback; reflexivity.
  - destruct (@installOc_rejections sampleConstants sampleHost
                "https://example.com/files/oc.zip" "Linux" true readyWorld eq_refl)
      as [_ Hsteps].
    destruct (Hsteps "https://example.com/files/oc.zip" readyWorld readyWorld)
      as (_ & _ & Hextract); [reflexivity | reflexivity |].
    rewrite (Hextract "https://example.com/files/oc.zip" readyWorld
               (snd (@downloadAndExtract sampleHost "https://example.com/files/oc.zip"
                       (@downloadDirectory sampleHost) "Linux" readyWorld)));
      [reflexivity | reflexivity |].
    vm_compute. reflexivity.
Defined.

(** * Further properties of the handler *)

(** ** The matcher against the meaning of a pattern *)

Lemma matchHere_Many1_cons (c : ascii -> bool) (pat : list Regex.item)
    (a : ascii) (s : string) :
  Regex.matchHere (Regex.Many1 c :: pat) (String a s)
  = if c a
    then match Regex.matchHere (Regex.Many1 c :: pat) s with
         | Some m => Some (String a m)
         | None => String a <$> Regex.matchHere pat s
         end
    else None.
Proof. reflexivity. Qed.

Lemma append_nil_r (s : string) : s +:+ EmptyString = s.
Proof.
  induction s as [|a s IH]; [reflexivity |].
  change (String a s +:+ EmptyString) with (String a (s +:+ EmptyString)).
  now rewrite IH.
Qed.

Lemma append_eq_nil (a b : string) :
  a +:+ b = EmptyString -> a = EmptyString /\ b = EmptyString.
Proof.
  destruct a; [| discriminate].
  change (EmptyString +:+ b) with b. now intros ->.
Qed.

(** What the matcher returns at a position is a match of the pattern
    there, and a prefix of the subject. *)
Lemma matchHere_sound (pat : list Regex.item) :
  forall s m : string,
    Regex.matchHere pat s = Some m ->
    exists rest : string, s = m +:+ rest /\ Matches pat m rest.
Proof.
  induction pat as [|[c|c|c] pat IH].
  - intros s m [= <-]. exists s. split; [reflexivity | constructor].
  - intros [|a s] m; [discriminate |]. cbn [Regex.matchHere].
    destruct (c a) eqn:Hc; [| discriminate].
    destruct (Regex.matchHere pat s) as [m0|] eqn:Hm; [| discriminate].
    intros [= <-]. destruct (IH s m0 Hm) as (rest & -> & Hmatch).
    exists rest. split; [reflexivity | now constructor].
  - induction s as [|a s IHs]; intros m; [discriminate |].
    rewrite matchHere_Many1_cons. destruct (c a) eqn:Hc; [| discriminate].
    destruct (Regex.matchHere (Regex.Many1 c :: pat) s) as [m1|] eqn:Hmany.
    + intros [= <-]. destruct (IHs m1 eq_refl) as (rest & -> & Hmatch).
      exists rest. split; [reflexivity |].
      inversion Hmatch as [| | |c' pat' run m0 rest' Hne Hall Hm0]; subst.
      change (String a (run +:+ m0)) with (String a run +:+ m0).
      constructor; [discriminate | | exact Hm0].
      cbn [allOf]. now rewrite Hc, Hall.
    + destruct (Regex.matchHere pat s) as [m0|] eqn:Hm; [| discriminate].
      intros [= <-]. destruct (IH s m0 Hm) as (rest & -> & Hmatch).
      exists rest. split; [reflexivity |].
      change (String a m0) with (String a EmptyString +:+ m0).
      constructor; [discriminate | | exact Hmatch].
      cbn [allOf]. now rewrite Hc.
  - intros [|a s] m; [discriminate |]. cbn [Regex.matchHere].
    destruct (c a) eqn:Hc; [| discriminate].
    intros Hm. destruct (IH (String a s) m Hm) as (rest & Hs & Hmatch).
    exists rest. split; [exact Hs |].
    now apply (MatchesAhead c pat a m rest s).
Qed.

(** The matcher fails at a position only when the pattern has no match
    there. *)
Lemma matchHere_complete (pat : list Regex.item) :
  forall s : string,
    Regex.matchHere pat s = None ->
    forall m rest : string, s = m +:+ rest -> ~ Matches pat m rest.
Proof.
  induction pat as [|[c|c|c] pat IH].
  - discriminate.
  - intros s Hnone m rest -> Hmatch.
    inversion Hmatch as [|c' pat' a m0 rest' Hc Hm0| |]; subst.
    change (String a m0 +:+ rest) with (String a (m0 +:+ rest)) in Hnone.
    cbn [Regex.matchHere] in Hnone. rewrite Hc in Hnone.
    destruct (Regex.matchHere pat (m0 +:+ rest)) eqn:Hm; [discriminate |].
    exact (IH _ Hm m0 rest eq_refl Hm0).
  - induction s as [|a s IHs]; intros Hnone m rest Hs Hmatch;
      inversion Hmatch as [| | |c' pat' run m0 rest' Hne Hall Hm0]; subst.
    + symmetry in Hs. apply append_eq_nil in Hs as [Hs _].
      apply append_eq_nil in Hs as [Hs _]. contradiction.
    + destruct run as [|x run]; [contradiction |].
      rewrite append_assoc in Hs.
      change (String x run +:+ m0 +:+ rest)
        with (String x (run +:+ m0 +:+ rest)) in Hs.
      injection Hs as <- ->.
      cbn [allOf] in Hall. apply andb_prop in Hall as [Hc Hall].
      rewrite matchHere_Many1_cons, Hc in Hnone.
      destruct (Regex.matchHere (Regex.Many1 c :: pat) (run +:+ m0 +:+ rest))
        eqn:Hmany; [discriminate |].
      destruct (Regex.matchHere pat (run +:+ m0 +:+ rest)) eqn:Hm;
        [discriminate |].
      destruct run as [|y run].
      * exact (IH _ Hm m0 rest eq_refl Hm0).
      * apply (IHs eq_refl (String y run +:+ m0) rest);
          [now rewrite append_assoc |].
        now constructor.
  - intros s Hnone m rest -> Hmatch.
    inversion Hmatch as [| |c' pat' a m0 rest' tail Hs Hc Hm0|]; subst.
    rewrite Hs in Hnone. cbn [Regex.matchHere] in Hnone. rewrite Hc in Hnone.
    rewrite <- Hs in Hnone. exact (IH _ Hnone m rest eq_refl Hm0).
Qed.

Lemma exec_sound (pat : list Regex.item) (s m : string) :
  Regex.exec pat s = Some m ->
  exists pre rest : string, s = pre +:+ m +:+ rest /\ Matches pat m rest.
Proof.
  induction s as [|a s IH]; cbn [Regex.exec];
    destruct (Regex.matchHere pat _) as [m0|] eqn:Hm; try discriminate.
  - intros [= <-]. destruct (matchHere_sound _ _ _ Hm) as (rest & Hs & Hmatch).
    now exists EmptyString, rest.
  - intros [= <-]. destruct (matchHere_sound _ _ _ Hm) as (rest & Hs & Hmatch).
    now exists EmptyString, rest.
  - intros Hexec. destruct (IH Hexec) as (pre & rest & -> & Hmatch).
    now exists (String a pre), rest.
Qed.

(** X1: [exec] returns a part of the subject that the pattern matches,
    no match begins before it, and it returns nothing only when the
    pattern matches nowhere in the subject. *)
Theorem exec_leftmost_match (pat : list Regex.item) (s : string) :
  (forall m : string,
      Regex.exec pat s = Some m ->
      exists pre rest : string,
        s = pre +:+ m +:+ rest
        /\ Matches pat m rest
        /\ forall pre' m' rest' : string,
            s = pre' +:+ m' +:+ rest' -> Matches pat m' rest' ->
            String.length pre <= String.length pre')
  /\ (Regex.exec pat s = None ->
      forall pre m rest : string,
        s = pre +:+ m +:+ rest -> ~ Matches pat m rest).
Proof.
  induction s as [|a s [IHsome IHnone]].
  - split.
    + intros m. cbn [Regex.exec].
      destruct (Regex.matchHere pat EmptyString) as [m0|] eqn:Hm; [| discriminate].
      intros [= <-]. destruct (matchHere_sound _ _ _ Hm) as (rest & Hs & Hmatch).
      exists EmptyString, rest. split; [exact Hs |]. split; [exact Hmatch |].
      intros; cbn; lia.
    + cbn [Regex.exec].
      destruct (Regex.matchHere pat EmptyString) eqn:Hm; [discriminate |].
      intros _ pre m rest Hs. symmetry in Hs.
      apply append_eq_nil in Hs as [-> Hs].
      now apply (matchHere_complete _ _ Hm).
  - cbn [Regex.exec].
    destruct (Regex.matchHere pat (String a s)) as [m0|] eqn:Hm.
    + split; [| discriminate]. intros m [= <-].
      destruct (matchHere_sound _ _ _ Hm) as (rest & Hs & Hmatch).
      exists EmptyString, rest. split; [exact Hs |]. split; [exact Hmatch |].
      intros; cbn; lia.
    + split.
      * intros m Hexec.
        destruct (IHsome m Hexec) as (pre & rest & -> & Hmatch & Hleft).
        exists (String a pre), rest. split; [reflexivity |].
        split; [exact Hmatch |].
        intros [|a' pre'] m' rest' Hs' Hmatch'.
        -- now destruct (matchHere_complete _ _ Hm m' rest' Hs').
        -- change (String a' pre' +:+ m' +:+ rest')
             with (String a' (pre' +:+ m' +:+ rest')) in Hs'.
           injection Hs' as <- Hs'. cbn [String.length].
           apply le_n_S. now apply (Hleft pre' m' rest').
      * intros Hexec [|a' pre] m rest Hs.
        -- now apply (matchHere_complete _ _ Hm).
        -- change (String a' pre +:+ m +:+ rest)
             with (String a' (pre +:+ m +:+ rest)) in Hs.
           injection Hs as <- Hs. now apply (IHnone Hexec pre m rest).
Qed.

Lemma exec_leftmost_match_witness :
  exists pre rest : string,
    "3x4.1.0" = pre +:+ "4" +:+ rest /\ Matches Regex.majorRe "4" rest.
Proof.
  destruct (exec_leftmost_match Regex.majorRe "3x4.1.0") as [Hsome _].
  destruct (Hsome "4" eq_refl) as (pre & rest & Hs & Hmatch & _).
  now exists pre, rest.
Defined.


Lemma Matches_nil_inv (m rest : string) : Matches [] m rest -> m = EmptyString.
Proof. now inversion 1. Qed.

Lemma Matches_One_inv (c : ascii -> bool) (pat : list Regex.item) (m rest : string) :
  Matches (Regex.One c :: pat) m rest ->
  exists (a : ascii) (m0 : string),
    m = String a m0 /\ c a = true /\ Matches pat m0 rest.
Proof. inversion 1; subst. eauto. Qed.

Lemma Matches_Many1_inv (c : ascii -> bool) (pat : list Regex.item) (m rest : string) :
  Matches (Regex.Many1 c :: pat) m rest ->
  exists run m0 : string,
    m = run +:+ m0 /\ run <> EmptyString /\ allOf c run = true
    /\ Matches pat m0 rest.
Proof. inversion 1; subst. eauto 6. Qed.

Lemma Matches_Ahead_inv (c : ascii -> bool) (pat : list Regex.item) (m rest : string) :
  Matches (Regex.Ahead c :: pat) m rest ->
  exists (a : ascii) (tail : string),
    m +:+ rest = String a tail /\ c a = true /\ Matches pat m rest.
Proof. inversion 1; subst. eauto. Qed.

Lemma allOf_isDigit (s : string) : allOf Js.isDigit s = allDigits s.
Proof. induction s as [|a s IH]; [reflexivity |]. cbn. now rewrite IH. Qed.

Lemma exec_here (pat : list Regex.item) (s m : string) :
  Regex.matchHere pat s = Some m -> Regex.exec pat s = Some m.
Proof. intros Hm. destruct s; cbn [Regex.exec]; now rewrite Hm. Qed.

(** A run of characters of the class, followed by something at which
    the repetition cannot go on, is taken whole when the rest of the
    pattern cannot begin with a character of the class. *)
Lemma matchHere_Many1_run (c : ascii -> bool) (pat : list Regex.item)
    (run r : string) :
  run <> EmptyString -> allOf c run = true ->
  (forall (x : ascii) (s : string),
      c x = true -> Regex.matchHere pat (String x s) = None) ->
  Regex.matchHere (Regex.Many1 c :: pat) r = None ->
  Regex.matchHere (Regex.Many1 c :: pat) (run +:+ r)
  = (fun m => run +:+ m) <$> Regex.matchHere pat r.
Proof.
  intros Hne Hall Hpat Hr. induction run as [|a run IH]; [contradiction |].
  cbn [allOf] in Hall. apply andb_prop in Hall as [Hc Hall].
  change (String a run +:+ r) with (String a (run +:+ r)).
  rewrite matchHere_Many1_cons, Hc.
  destruct run as [|y run].
  - change (EmptyString +:+ r) with r. rewrite Hr.
    now destruct (Regex.matchHere pat r).
  - rewrite IH by (discriminate || assumption).
    destruct (Regex.matchHere pat r); [reflexivity |].
    cbn [fmap option_fmap option_map].
    change (String y run +:+ r) with (String y (run +:+ r)).
    cbn [allOf] in Hall. apply andb_prop in Hall as [Hy _].
    now rewrite (Hpat y _ Hy).
Qed.

Lemma countChar_append (c : ascii) (a b : string) :
  countChar c (a +:+ b) = countChar c a + countChar c b.
Proof.
  induction a as [|x a IH]; [reflexivity |].
  change (String x a +:+ b) with (String x (a +:+ b)).
  cbn [countChar]. rewrite IH. lia.
Qed.

Lemma countChar_stripV (version : string) :
  countChar "." (stripV version) = countChar "." version.
Proof.
  unfold stripV. destruct version as [|a s]; [reflexivity |].
  cbn [Js.startsWith]. destruct (Ascii.eqb_spec "v" a) as [<- |]; reflexivity.
Qed.

(** What the [MAJOR.MINOR] expression matches holds a dot and is followed
    by one. *)
Lemma Matches_majorMinor_dots (m rest : string) :
  Matches Regex.majorMinorRe m rest -> 2 <= countChar "." (m +:+ rest).
Proof.
  intros H.
  apply Matches_Many1_inv in H as (run1 & m1 & -> & _ & _ & H).
  apply Matches_One_inv in H as (a & m2 & -> & Ha & H).
  apply Matches_Many1_inv in H as (run2 & m3 & -> & _ & _ & H).
  apply Matches_Ahead_inv in H as (a' & tail & Hs & Ha' & H).
  apply Matches_nil_inv in H. subst m3.
  change (EmptyString +:+ rest) with rest in Hs. subst rest.
  unfold Regex.isDot in Ha, Ha'.
  apply Ascii.eqb_eq in Ha, Ha'. subst a a'.
  rewrite !countChar_append. cbn [countChar]. rewrite !countChar_append.
  cbn [countChar]. rewrite Ascii.eqb_refl. lia.
Qed.

Lemma ocBundleURL_latest_none `{Constants} (ocUtils : gmap string string)
    (version osType : string) :
  latestPatch ocUtils (stripV version) = None ->
  ocBundleURL ocUtils version osType true = None.
Proof.
  intros Hlatest. unfold ocBundleURL.
  destruct (negb (Js.truthy version)); [reflexivity |]. cbv zeta.
  destruct (Regex.exec Regex.majorRe (stripV version)); [| reflexivity].
  now rewrite Hlatest.
Qed.

(** X2: one leading [v] is insignificant: a version and the same version
    written with a [v] before it resolve alike, with or without the
    fallback. *)
Theorem ocBundleURL_v_prefix `{Constants} (ocUtils : gmap string string)
    (version osType : string) (latest : bool) :
  Js.startsWith "v" version = false ->
  ocBundleURL ocUtils (String "v" version) osType latest
  = ocBundleURL ocUtils version osType latest.
Proof.
  intros Hv. unfold ocBundleURL.
  change (stripV (String "v" version)) with version.
  cbn [Js.truthy negb].
  destruct version as [|a s]; [reflexivity |].
  cbn [Js.truthy negb]. unfold stripV. now rewrite Hv.
Qed.

Lemma ocBundleURL_v_prefix_witness :
  @ocBundleURL sampleConstants sampleOcUtils "v4.1.0" "Windows_NT" true
  = @ocBundleURL sampleConstants sampleOcUtils "4.1.0" "Windows_NT" true.
Proof.
  apply (@ocBundleURL_v_prefix sampleConstants sampleOcUtils "4.1.0"
           "Windows_NT" true).
  reflexivity.
Defined.

(** X4: the fallback needs a version with two dots.  For a version with
    fewer, such as a [MAJOR.MINOR] one, the resolution of the latest
    patch is [None], whatever the table holds. *)
Theorem latest_needs_two_dots `{Constants} (ocUtils : gmap string string)
    (version osType : string) :
  countChar "." version < 2 ->
  ocBundleURL ocUtils version osType true = None.
Proof.
  intros Hdots. apply ocBundleURL_latest_none. unfold latestPatch.
  destruct (Regex.exec Regex.majorMinorRe (stripV version)) as [m|] eqn:Hexec;
    [| reflexivity].
  destruct (exec_sound _ _ _ Hexec) as (pre & rest & Hs & Hmatch).
  apply Matches_majorMinor_dots in Hmatch.
  rewrite <- countChar_stripV, Hs, countChar_append in Hdots. lia.
Qed.

Lemma latest_needs_two_dots_witness :
  @ocBundleURL sampleConstants sampleOcUtils "v4.1" "Linux" true = None.
Proof.
  apply (@latest_needs_two_dots sampleConstants sampleOcUtils "v4.1" "Linux").
  cbn. lia.
Defined.

Lemma bundle_none `{Constants} (osType : string) :
  getOcBundleByOS osType = None ->
  osType <> "Linux" /\ osType <> "Darwin" /\ osType <> "Windows_NT".
Proof.
  unfold getOcBundleByOS.
  destruct (String.eqb_spec osType "Linux"); [discriminate |].
  destruct (String.eqb_spec osType "Darwin"); [discriminate |].
  destruct (String.eqb_spec osType "Windows_NT"); [discriminate |].
  now intros _.
Qed.

(** X3: without the fallback, [ocBundleURL] returns [None] in exactly
    four cases: the version is empty; the version, a leading [v]
    removed, has no run of digits followed by a dot; the major version
    found is neither 3 nor 4; the OS is not one of the three supported
    ones. *)
Theorem ocBundleURL_null_iff `{Constants} (ocUtils : gmap string string)
    (version osType : string) :
  ocBundleURL ocUtils version osType false = None
  <-> version = EmptyString
      \/ (forall pre m post : string,
             ~ digitRunAt false (stripV version) pre m post)
      \/ (exists m : string,
             Regex.exec Regex.majorRe (stripV version) = Some m
             /\ Js.toNumber m <> 3%N /\ Js.toNumber m <> 4%N)
      \/ (osType <> "Linux" /\ osType <> "Darwin" /\ osType <> "Windows_NT").
Proof.
  destruct (String.eqb_spec version EmptyString) as [-> | Hne].
  { split; [now left | reflexivity]. }
  destruct (Regex.exec Regex.majorRe (stripV version)) as [m|] eqn:Hm.
  - rewrite (ocBundleURL_eq _ _ _ _ m Hne Hm).
    pose proof Hm as Hscan. rewrite (proj1 (exec_majorRe_scan _)) in Hscan.
    destruct (firstRunBeforeDot_sound _ _ _ Hscan) as (pre & post & Hrun & _).
    unfold baseUrlFor.
    destruct (N.eqb_spec (Js.toNumber m) 3) as [E3|N3];
      [| destruct (N.eqb_spec (Js.toNumber m) 4) as [E4|N4]].
    + destruct (getOcBundleByOS osType) as [bundle|] eqn:Hb.
      * split; [discriminate |].
        intros [| [Hno | [(m' & [= <-] & H3 & _) | (HL & HD & HW)]]];
          [contradiction | now destruct (Hno pre m post) | contradiction |].
        now rewrite bundle_unsupported in Hb.
      * split; [| reflexivity]. intros _. do 3 right. now apply bundle_none.
    + destruct (getOcBundleByOS osType) as [bundle|] eqn:Hb.
      * split; [discriminate |].
        intros [| [Hno | [(m' & [= <-] & _ & H4) | (HL & HD & HW)]]];
          [contradiction | now destruct (Hno pre m post) | contradiction |].
        now rewrite bundle_unsupported in Hb.
      * split; [| reflexivity]. intros _. do 3 right. now apply bundle_none.
    + split; [| reflexivity]. intros _. right. right. left. now exists m.
  - split.
    + intros _. right. left.
      rewrite (proj1 (exec_majorRe_scan _)) in Hm.
      now apply firstRunBeforeDot_complete.
    + intros _. unfold ocBundleURL. apply truthy_true in Hne.
      now rewrite Hne, Hm.
Qed.

Lemma digit_not_v (a : ascii) : Js.isDigit a = true -> Ascii.eqb "v" a = false.
Proof.
  intros Ha. destruct (Ascii.eqb_spec "v" a) as [<- |]; [discriminate | reflexivity].
Qed.

Lemma many1_stops_at_dot (pat : list Regex.item) (s : string) :
  Regex.matchHere (Regex.Many1 Js.isDigit :: pat) (String "." s) = None.
Proof. reflexivity. Qed.

Lemma matchHere_One_cons (c : ascii -> bool) (pat : list Regex.item)
    (a : ascii) (s : string) :
  Regex.matchHere (Regex.One c :: pat) (String a s)
  = if c a then String a <$> Regex.matchHere pat s else None.
Proof. reflexivity. Qed.

(** The two expressions on a version that begins [MAJOR.MINOR.]. *)
Lemma exec_three_component (a b rest : string) :
  a <> EmptyString -> allDigits a = true ->
  b <> EmptyString -> allDigits b = true ->
  Regex.exec Regex.majorRe (a +:+ "." +:+ b +:+ "." +:+ rest) = Some a
  /\ Regex.exec Regex.majorMinorRe (a +:+ "." +:+ b +:+ "." +:+ rest)
     = Some (a +:+ "." +:+ b).
Proof.
  intros Ha Hda Hb Hdb.
  assert (Hdot : forall (pat : list Regex.item) (x : ascii) (s : string),
             Js.isDigit x = true ->
             Regex.matchHere (Regex.One Regex.isDot :: pat) (String x s) = None).
  { intros pat x s Hx. cbn [Regex.matchHere]. now rewrite (digit_not_dot x Hx). }
  assert (Hahead : forall (x : ascii) (s : string),
             Js.isDigit x = true ->
             Regex.matchHere [Regex.Ahead Regex.isDot] (String x s) = None).
  { intros x s Hx. cbn [Regex.matchHere]. now rewrite (digit_not_dot x Hx). }
  split; apply exec_here.
  - rewrite matchHere_majorRe. destruct a as [|a0 a]; [contradiction |].
    change (String a0 a +:+ "." +:+ b +:+ "." +:+ rest)
      with (String a0 (a +:+ String "." (b +:+ String "." rest))).
    pose proof Hda as Hda'. cbn [allDigits] in Hda'.
    apply andb_prop in Hda' as [Ha0 _]. rewrite Ha0.
    change (String a0 (a +:+ String "." (b +:+ String "." rest)))
      with (String a0 a +:+ String "." (b +:+ String "." rest)).
    now rewrite (spanDigits_run _ _ Hda).
  - unfold Regex.majorMinorRe.
    change (a +:+ "." +:+ b +:+ "." +:+ rest)
      with (a +:+ String "." (b +:+ String "." rest)).
    rewrite matchHere_Many1_run;
      [| exact Ha | now rewrite allOf_isDigit | apply Hdot
       | apply many1_stops_at_dot].
    rewrite matchHere_One_cons. change (Regex.isDot ".") with true. cbv iota.
    rewrite matchHere_Many1_run;
      [| exact Hb | now rewrite allOf_isDigit | exact Hahead
       | apply many1_stops_at_dot].
    cbn. now rewrite append_nil_r.
Qed.

(** X5: the fallback on a version that begins [MAJOR.MINOR.], both runs
    of digits.  The table is read under ["oc" + MAJOR.MINOR]; without a
    non-empty entry the result is [None]; with one, the URL is on the
    mirror of the major version asked for, with the entry as its version
    segment. *)
Theorem latest_three_component `{Constants} (ocUtils : gmap string string)
    (a b rest osType : string) :
  a <> EmptyString -> allDigits a = true ->
  b <> EmptyString -> allDigits b = true ->
  let version := a +:+ "." +:+ b +:+ "." +:+ rest in
  let key := "oc" +:+ a +:+ "." +:+ b in
  (Js.truthyOpt (ocUtils !! key) = false ->
   ocBundleURL ocUtils version osType true = None)
  /\ (forall patch bundle : string,
         ocUtils !! key = Some patch -> patch <> EmptyString ->
         getOcBundleByOS osType = Some bundle ->
         (Js.toNumber a = 3%N ->
          ocBundleURL ocUtils version osType true
          = Some (V3Base ocUtils +:+ "/" +:+ patch +:+ "/" +:+ bundle))
         /\ (Js.toNumber a = 4%N ->
             ocBundleURL ocUtils version osType true
             = Some (V4Base ocUtils +:+ "/" +:+ patch +:+ "/" +:+ bundle))).
Proof.
  intros Ha Hda Hb Hdb version key.
  destruct (exec_three_component a b rest Ha Hda Hb Hdb) as [Hmajor Hminor].
  fold version in Hmajor, Hminor.
  assert (Hstrip : stripV version = version).
  { subst version. unfold stripV. destruct a as [|a0 a]; [contradiction |].
    cbn [allDigits] in Hda. apply andb_prop in Hda as [Ha0 _].
    change (String a0 a +:+ "." +:+ b +:+ "." +:+ rest)
      with (String a0 (a +:+ "." +:+ b +:+ "." +:+ rest)).
    cbn [Js.startsWith]. now rewrite (digit_not_v a0 Ha0). }
  assert (Hne : version <> EmptyString).
  { subst version. destruct a; [contradiction | discriminate]. }
  assert (Hlatest : latestPatch ocUtils (stripV version)
                    = if Js.truthyOpt (ocUtils !! key) then ocUtils !! key else None).
  { unfold latestPatch. now rewrite Hstrip, Hminor. }
  split.
  - intros Hkey. apply ocBundleURL_latest_none. now rewrite Hlatest, Hkey.
  - intros patch bundle Hpatch Hpne Hbundle.
    rewrite Hpatch in Hlatest. cbn [Js.truthyOpt] in Hlatest.
    apply truthy_true in Hpne. rewrite Hpne in Hlatest.
    rewrite <- Hstrip in Hmajor.
    rewrite (ocBundleURL_eq _ _ _ _ a Hne Hmajor), Hlatest, Hbundle.
    unfold baseUrlFor. split; intros ->; cbn; now rewrite !append_assoc.
Qed.

Lemma latest_three_component_witness :
  @ocBundleURL sampleConstants sampleOcUtils "4.1.99" "Darwin" true
  = Some "https://mirror.openshift.com/pub/openshift-v4/clients/oc/4.1.18/macosx/oc.tar.gz"
  /\ @ocBundleURL sampleConstants sampleOcUtils "4.2.0" "Darwin" true = None.
Proof.
  split.
  - destruct (@latest_three_component sampleConstants sampleOcUtils
                "4" "1" "99" "Darwin") as [_ Hurl];
      [discriminate | reflexivity | discriminate | reflexivity |].
    destruct (Hurl "4.1.18" "macosx/oc.tar.gz") as [_ H4];
      [reflexivity | discriminate | reflexivity |].
    apply H4. reflexivity.
  - destruct (@latest_three_component sampleConstants sampleOcUtils
                "4" "2" "0" "Darwin") as [Hnone _];
      [discriminate | reflexivity | discriminate | reflexivity |].
    apply Hnone. reflexivity.
Defined.

(** ** What the fetcher/extractor changes and returns *)

Lemma extract_variables `{Host} (archivePath archiveType dir : string) (w : World) :
  variables (snd (extract archivePath archiveType dir w)) = variables w.
Proof.
  unfold extract, unzip, untargz, reject.
  destruct (String.eqb archiveType ".zip");
    [destruct (extractAllTo archivePath dir) |
     destruct (String.eqb archiveType ".tgz" || String.eqb archiveType ".tar.gz");
     [destruct (decompress archivePath dir) |]];
    reflexivity.
Qed.

Lemma download_frame `{Host} (url dir : string) (w : World) :
  let w1 := snd (download url dir w) in
  files w ⊆ files w1
  /\ variables w1 = variables w
  /\ (transfers w1 = transfers w \/ transfers w1 = url :: transfers w)
  /\ (forall archivePath : string,
         fst (download url dir w) = Ok archivePath ->
         archivePath = join dir (archiveOf url)
         /\ normalize archivePath ∈ files w1).
Proof.
  cbv zeta.
  destruct (decide (normalize (join dir (archiveOf url)) ∈ files w)) as [Hin|Hout].
  - rewrite (download_present _ _ _ Hin). cbn [fst snd].
    split; [set_solver |]. split; [reflexivity |]. split; [now left |].
    now intros archivePath [= <-].
  - rewrite (download_absent _ _ _ Hout). cbv zeta.
    destruct (curlExec _ url); cbn [fst snd createFile files variables transfers];
      (split; [set_solver |]); (split; [reflexivity |]); (split; [now right |]);
      intros archivePath [= <-].
    split; [reflexivity | set_solver].
Qed.

Lemma downloadAndExtract_guard `{Host} (url downloadDir osType : string) (w : World) :
  url = EmptyString \/ normalize (normalize downloadDir) ∉ files w ->
  snd (downloadAndExtract url downloadDir osType w) = w.
Proof.
  intros Hguard. unfold downloadAndExtract.
  destruct (Js.truthy url) eqn:Hurl; [| reflexivity].
  destruct Hguard as [-> | Hdir]; [discriminate |].
  cbn [negb]. unfold bind. rewrite exist_run.
  now rewrite (bool_decide_eq_false_2 _ Hdir).
Qed.

Lemma downloadAndExtract_changes `{Host} (url downloadDir osType : string)
    (w : World) :
  let w' := snd (downloadAndExtract url downloadDir osType w) in
  files w ⊆ files w'
  /\ variables w' = variables w
  /\ (transfers w' = transfers w \/ transfers w' = url :: transfers w).
Proof.
  cbv zeta.
  destruct (String.eqb_spec url EmptyString) as [Hurl|Hurl].
  { rewrite downloadAndExtract_guard by now left.
    repeat split; [set_solver | now left]. }
  destruct (decide (normalize (normalize downloadDir) ∈ files w)) as [Hdir|Hdir].
  2:{ rewrite downloadAndExtract_guard by now right.
      repeat split; [set_solver | now left]. }
  rewrite (downloadAndExtract_run _ _ _ _ Hurl Hdir). cbv zeta.
  pose proof (download_frame url (normalize downloadDir) w)
    as (Hf1 & Hv1 & Ht1 & _).
  destruct (download url (normalize downloadDir) w) as [[archivePath|e] w1];
    cbn [snd] in *; [| now repeat split].
  pose proof (extract_frame archivePath (archiveTypeOf (archiveOf url))
                (normalize downloadDir) w1) as [Hf2 Ht2].
  pose proof (extract_variables archivePath (archiveTypeOf (archiveOf url))
                (normalize downloadDir) w1) as Hv2.
  destruct (extract archivePath _ (normalize downloadDir) w1) as [[[]|e] w2];
    cbn [snd] in *;
    (repeat split;
     [now transitivity (files w1) | congruence | rewrite Ht2; exact Ht1]).
Qed.

Lemma downloadAndExtract_some `{Host} (url downloadDir osType ocBinary : string)
    (w w' : World) :
  downloadAndExtract url downloadDir osType w = (Ok (Some ocBinary), w') ->
  ocBinary = join (normalize downloadDir)
                  (if String.eqb osType "Windows_NT" then "oc.exe" else "oc")
  /\ normalize ocBinary ∈ files w'
  /\ normalize (join (normalize downloadDir) (archiveOf url)) ∈ files w'
  /\ url <> EmptyString.
Proof.
  intros Hrun.
  destruct (String.eqb_spec url EmptyString) as [Hurl|Hurl].
  { subst url. discriminate. }
  destruct (decide (normalize (normalize downloadDir) ∈ files w)) as [Hdir|Hdir].
  2:{ unfold downloadAndExtract in Hrun. apply truthy_true in Hurl.
      rewrite Hurl in Hrun. cbn [negb] in Hrun. unfold bind in Hrun.
      rewrite exist_run, (bool_decide_eq_false_2 _ Hdir) in Hrun. discriminate. }
  rewrite (downloadAndExtract_run _ _ _ _ Hurl Hdir) in Hrun. cbv zeta in Hrun.
  pose proof (download_frame url (normalize downloadDir) w) as (_ & _ & _ & Hpath).
  destruct (download url (normalize downloadDir) w) as [[archivePath|e] w1];
    [| discriminate].
  destruct (Hpath archivePath eq_refl) as [-> Hin]. cbn [snd] in Hin.
  pose proof (extract_frame (join (normalize downloadDir) (archiveOf url))
                (archiveTypeOf (archiveOf url)) (normalize downloadDir) w1)
    as [Hfiles _].
  destruct (extract _ _ (normalize downloadDir) w1) as [[[]|e] w2];
    [| discriminate]. cbn [snd] in Hfiles.
  destruct (bool_decide (normalize (join (normalize downloadDir)
                                      (ocBinaryName osType)) ∈ files w2))
    eqn:Hfound; [| discriminate].
  injection Hrun as <- <-. apply bool_decide_eq_true_1 in Hfound.
  repeat split;
    [exact Hfound | exact (elem_of_weaken _ _ _ Hin Hfiles) | exact Hurl].
Qed.

(** X8: [downloadAndExtract] looks at its arguments before it does
    anything.  With an empty URL it resolves to null, with a download
    directory that does not exist it is rejected with the normalized
    directory followed by " does not exist."; in both cases the world is
    left as it was. *)
Theorem downloadAndExtract_guards `{Host} (url downloadDir osType : string)
    (w : World) :
  (url = EmptyString ->
   downloadAndExtract url downloadDir osType w = (Ok None, w))
  /\ (url <> EmptyString ->
      normalize (normalize downloadDir) ∉ files w ->
      downloadAndExtract url downloadDir osType w
      = (Err (RejectString (normalize downloadDir +:+ " does not exist.")), w)).
Proof.
  split.
  - now intros ->.
  - intros Hurl Hdir. unfold downloadAndExtract.
    apply truthy_true in Hurl. rewrite Hurl. cbn [negb]. unfold bind.
    now rewrite exist_run, (bool_decide_eq_false_2 _ Hdir).
Qed.

Lemma downloadAndExtract_guards_witness :
  @downloadAndExtract sampleHost "" "/agent/work/.download" "Linux" emptyWorld
  = (Ok None, emptyWorld)
  /\ @downloadAndExtract sampleHost "https://example.com/oc.zip"
       "/agent/work/.download" "Linux" emptyWorld
     = (Err (RejectString "/agent/work/.download does not exist."), emptyWorld).
Proof.
  destruct (@downloadAndExtract_guards sampleHost "" "/agent/work/.download"
              "Linux" emptyWorld) as [Hnull _].
  destruct (@downloadAndExtract_guards sampleHost "https://example.com/oc.zip"
              "/agent/work/.download" "Linux" emptyWorld) as [_ Hdir].
  split; [now apply Hnull |].
  apply Hdir; [discriminate |].
  change ("/agent/work/.download" ∉ (∅ : gset string)). apply not_elem_of_empty.
Defined.

(** ** What the install orchestration changes and returns *)

Lemma pickVersion_run `{Constants} `{Host} (downloadVersion osType : string)
    (w : World) :
  pickVersion downloadVersion osType w
  = (if Js.truthy downloadVersion then Ok downloadVersion
     else match latestStable ocUtils osType with
          | Some url => Ok url
          | None => Err (RejectString "Unable to determine latest oc download URL")
          end, w).
Proof.
  unfold pickVersion. destruct (Js.truthy downloadVersion); [reflexivity |].
  cbn [negb]. now destruct (latestStable ocUtils osType).
Qed.

Lemma ensureDirectory_frame `{Host} (dir : string) (w : World) :
  let w' := snd (ensureDirectory dir w) in
  files w ⊆ files w' /\ variables w' = variables w /\ transfers w' = transfers w.
Proof.
  cbv zeta. unfold ensureDirectory, bind. rewrite exist_run.
  destruct (bool_decide (normalize dir ∈ files w)); cbn [negb snd];
    [repeat split; reflexivity |].
  unfold mkdir. destruct (mkdirExec dir); cbn [snd createFile files];
    repeat split; set_solver.
Qed.

Lemma chooseUrl_run `{Constants} `{Host} (version osType : string) (w : World) :
  snd (chooseUrl version osType w) = w
  /\ forall url : string,
      fst (chooseUrl version osType w) = Ok (Some url) ->
      (isWebUri version = true /\ url = version)
      \/ (isWebUri version = false
          /\ ((fetchHead (ocBundleURL ocUtils version osType false) = Some true
               /\ ocBundleURL ocUtils version osType false = Some url)
              \/ (fetchHead (ocBundleURL ocUtils version osType false) = Some false
                  /\ ocBundleURL ocUtils version osType true = Some url))).
Proof.
  unfold chooseUrl, resolveUrl. destruct (isWebUri version).
  - split; [reflexivity |]. intros url [= <-]. now left.
  - destruct (fetchHead (ocBundleURL ocUtils version osType false)) as [[]|];
      cbn [negb fst snd]; (split; [reflexivity |]);
      intros url [= Hurl]; right; (split; [reflexivity |]);
      [left | right]; now split.
Qed.

(** [installOc] when no local [oc] is reused, step by step. *)
Lemma installOc_run `{Constants} `{Host} (downloadVersion osType : string)
    (useLocalOc : bool) (w : World) :
  Js.truthyOpt (if useLocalOc then getLocalOcPath downloadVersion else None)
  = false ->
  installOc downloadVersion osType useLocalOc w
  = match pickVersion downloadVersion osType w with
    | (Err e, w1) => (Err e, w1)
    | (Ok version, w1) =>
        match ensureDirectory downloadDirectory w1 with
        | (Err e, w2) => (Err e, w2)
        | (Ok _, w2) =>
            match chooseUrl version osType w2 with
            | (Err e, w3) => (Err e, w3)
            | (Ok None, w3) =>
                (Err (RejectString "Unable to determine oc download URL."), w3)
            | (Ok (Some url), w3) =>
                match downloadAndExtract url downloadDirectory osType w3 with
                | (Err e, w4) => (Err e, w4)
                | (Ok None, w4) =>
                    (Err (RejectString "Unable to download or extract oc binary."),
                     w4)
                | (Ok (Some ocBinary), w4) => (Ok ocBinary, w4)
                end
            end
        end
    end.
Proof.
  intros Hlocal. unfold installOc. rewrite Hlocal. unfold bind at 1.
  destruct (pickVersion downloadVersion osType w) as [[version|e] w1];
    [| reflexivity].
  unfold bind at 1.
  destruct (ensureDirectory downloadDirectory w1) as [[[]|e] w2]; [| reflexivity].
  unfold bind at 1.
  destruct (chooseUrl version osType w2) as [[[url|]|e] w3]; try reflexivity.
  unfold bind.
  now destruct (downloadAndExtract url downloadDirectory osType w3)
    as [[[ocBinary|]|e] w4].
Qed.

Lemma getLocalOcPath_some `{Host} (version p : string) :
  getLocalOcPath version = Some p -> whichOc = Some p.
Proof.
  unfold getLocalOcPath. destruct whichOc as [q|]; [| discriminate].
  destruct (Js.truthy version && Js.truthy q); [| congruence].
  destruct (getOcVersion q) as [lv|]; [| discriminate].
  destruct (negb (Js.truthy lv) || _); [discriminate | congruence].
Qed.

(** X6: neither [downloadAndExtract] nor [installOc] removes a file or
    touches a task variable, and each performs at most one transfer.
    [downloadAndExtract] transfers the URL it was given; [installOc]
    transfers the version itself when that is a web URI, and otherwise
    the URL resolved for it, the fallback one only after a [HEAD]
    request on the first was answered with a failure. *)
Theorem handler_frame `{Constants} `{Host} (osType : string) (w : World) :
  (forall url downloadDir : string,
      let w' := snd (downloadAndExtract url downloadDir osType w) in
      files w ⊆ files w'
      /\ variables w' = variables w
      /\ (transfers w' = transfers w \/ transfers w' = url :: transfers w))
  /\ (forall (downloadVersion : string) (useLocalOc : bool),
         let w' := snd (installOc downloadVersion osType useLocalOc w) in
         files w ⊆ files w'
         /\ variables w' = variables w
         /\ (transfers w' = transfers w
             \/ exists version url : string,
                 transfers w' = url :: transfers w
                 /\ fst (pickVersion downloadVersion osType w) = Ok version
                 /\ ((isWebUri version = true /\ url = version)
                     \/ (isWebUri version = false
                         /\ ((fetchHead (ocBundleURL ocUtils version osType false)
                              = Some true
                              /\ ocBundleURL ocUtils version osType false
                                 = Some url)
                             \/ (fetchHead (ocBundleURL ocUtils version osType false)
                                 = Some false
                                 /\ ocBundleURL ocUtils version osType true
                                    = Some url)))))).
Proof.
  split; [intros url downloadDir; apply downloadAndExtract_changes |].
  intros downloadVersion useLocalOc. cbv zeta.
  destruct (Js.truthyOpt (if useLocalOc then getLocalOcPath downloadVersion
                          else None)) eqn:Hlocal.
  { unfold installOc. rewrite Hlocal. cbn [ret snd].
    repeat split; [reflexivity | now left]. }
  rewrite (installOc_run _ _ _ _ Hlocal).
  rewrite pickVersion_run.
  destruct (if Js.truthy downloadVersion then Ok downloadVersion else _)
    as [version|e] eqn:Hpick; [| repeat split; [reflexivity | now left]].
  pose proof (ensureDirectory_frame downloadDirectory w) as (Hf2 & Hv2 & Ht2).
  destruct (ensureDirectory downloadDirectory w) as [[[]|e] w2]; cbn [snd] in *;
    [| repeat split; [exact Hf2 | exact Hv2 | now left]].
  pose proof (chooseUrl_run version osType w2) as [Hw3 Hurl].
  destruct (chooseUrl version osType w2) as [[[url|]|e] w3]; cbn [fst snd] in *;
    subst w3; try (repeat split; [exact Hf2 | exact Hv2 | now left]).
  pose proof (downloadAndExtract_changes url downloadDirectory osType w2)
    as (Hf4 & Hv4 & Ht4).
  assert (Hframe : forall w4 : World,
             snd (downloadAndExtract url downloadDirectory osType w2) = w4 ->
             files w ⊆ files w4
             /\ variables w4 = variables w
             /\ (transfers w4 = transfers w
                 \/ exists version0 url0 : string,
                     transfers w4 = url0 :: transfers w
                     /\ Ok version = Ok version0
                     /\ ((isWebUri version0 = true /\ url0 = version0)
                         \/ (isWebUri version0 = false
                             /\ ((fetchHead (ocBundleURL ocUtils version0 osType false)
                                  = Some true
                                  /\ ocBundleURL ocUtils version0 osType false
                                     = Some url0)
                                 \/ (fetchHead (ocBundleURL ocUtils version0 osType false)
                                     = Some false
                                     /\ ocBundleURL ocUtils version0 osType true
                                        = Some url0)))))).
  { intros w4 <-. split; [now transitivity (files w2) |].
    split; [congruence |].
    destruct Ht4 as [Ht4|Ht4]; [left; congruence |].
    right. exists version, url. split; [congruence |]. split; [reflexivity |].
    now apply Hurl. }
  destruct (downloadAndExtract url downloadDirectory osType w2)
    as [[[ocBinary|]|e] w4]; now apply Hframe.
Qed.

(** X7: what [downloadAndExtract] and [installOc] resolve to.  A path
    returned by [downloadAndExtract] is that of [oc.exe] (for
    ["Windows_NT"]) or [oc] (otherwise) directly in the normalized
    download directory; that file and the archive exist in the world
    left behind.  A path returned by [installOc] is either the local
    [oc] found on the search path, the world being left as it was, or
    such a path in the directory [.download] below the working
    directory. *)
Theorem handler_result `{Constants} `{Host} (osType : string) (w w' : World) :
  (forall url downloadDir ocBinary : string,
      downloadAndExtract url downloadDir osType w = (Ok (Some ocBinary), w') ->
      ocBinary = join (normalize downloadDir)
                      (if String.eqb osType "Windows_NT" then "oc.exe" else "oc")
      /\ normalize ocBinary ∈ files w'
      /\ normalize (join (normalize downloadDir) (archiveOf url)) ∈ files w'
      /\ url <> EmptyString)
  /\ (forall (downloadVersion : string) (useLocalOc : bool) (ocBinary : string),
         installOc downloadVersion osType useLocalOc w = (Ok ocBinary, w') ->
         (useLocalOc = true /\ whichOc = Some ocBinary
          /\ ocBinary <> EmptyString /\ w' = w)
         \/ (ocBinary
             = join (normalize (Js.str workingDirectory +:+ "/.download"))
                    (if String.eqb osType "Windows_NT" then "oc.exe" else "oc")
             /\ normalize ocBinary ∈ files w')).
Proof.
  split; [intros url downloadDir ocBinary; apply downloadAndExtract_some |].
  intros downloadVersion useLocalOc ocBinary Hrun.
  destruct (Js.truthyOpt (if useLocalOc then getLocalOcPath downloadVersion
                          else None)) eqn:Hlocal.
  - left. unfold installOc in Hrun. rewrite Hlocal in Hrun.
    destruct useLocalOc; [| discriminate].
    destruct (getLocalOcPath downloadVersion) as [p|] eqn:Hp; [| discriminate].
    injection Hrun as <- <-. cbn [Js.str Js.truthyOpt] in *.
    repeat split; [now apply (getLocalOcPath_some downloadVersion) |].
    now apply truthy_true.
  - right. rewrite (installOc_run _ _ _ _ Hlocal) in Hrun.
    destruct (pickVersion downloadVersion osType w) as [[version|e] w1];
      [| discriminate].
    destruct (ensureDirectory downloadDirectory w1) as [[[]|e] w2];
      [| discriminate].
    destruct (chooseUrl version osType w2) as [[[url|]|e] w3]; try discriminate.
    destruct (downloadAndExtract url downloadDirectory osType w3)
      as [[[p|]|e] w4] eqn:Hextract; try discriminate.
    injection Hrun as <- <-.
    destruct (downloadAndExtract_some _ _ _ _ _ _ Hextract) as (Hp & Hin & _).
    now split.
Qed.

Lemma handler_result_witness :
  let w := {| files := {["/agent/work/.download"; "/agent/work/.download/oc"]};
              variables := ∅; transfers := [] |} in
  let run := @installOc sampleConstants sampleHost
               "https://example.com/files/oc.tar.gz" "Linux" false w in
  fst run = Ok "/agent/work/.download/oc"
  /\ "/agent/work/.download/oc" ∈ files (snd run).
Proof.
  intros w run.
  assert (Hrun : run = (Ok "/agent/work/.download/oc", snd run))
    by (vm_compute; reflexivity).
  destruct (@handler_result sampleConstants sampleHost "Linux" w (snd run))
    as [_ Hinstall].
  destruct (Hinstall _ _ _ Hrun) as [(Hfalse & _) | [_ Hin]]; [discriminate |].
  split; [now rewrite Hrun | exact Hin].
Defined.

(** X9: the reuse of a local [oc].  When reuse is asked for, an [oc] is
    on the search path and either no version is requested or the
    version it reports equals the requested one up to case, [installOc]
    resolves to the path found and leaves the world as it was: no
    directory is made and nothing is transferred.  When reuse is asked
    for and no usable [oc] is found, [installOc] goes on as if it had
    not been asked for. *)
Theorem installOc_reuses_local `{Constants} `{Host}
    (downloadVersion osType : string) (w : World) :
  (forall p : string,
      whichOc = Some p -> p <> EmptyString ->
      downloadVersion = EmptyString
      \/ (exists localOcVersion : string,
             getOcVersion p = Some localOcVersion
             /\ Js.toLowerCase localOcVersion = Js.toLowerCase downloadVersion) ->
      installOc downloadVersion osType true w = (Ok p, w))
  /\ (Js.truthyOpt (getLocalOcPath downloadVersion) = false ->
      installOc downloadVersion osType true w
      = installOc downloadVersion osType false w).
Proof.
  split.
  - intros p Hwhich Hp Hversion.
    assert (Hlocal : getLocalOcPath downloadVersion = Some p).
    { unfold getLocalOcPath. rewrite Hwhich.
      destruct Hversion as [-> | (lv & Hlv & Hsame)]; [reflexivity |].
      destruct (Js.truthy downloadVersion && Js.truthy p); [| reflexivity].
      rewrite Hlv. destruct (getOcVersion_v _ _ Hlv) as [rest ->].
      cbn [Js.truthy negb orb]. rewrite Hsame.
      now rewrite String.eqb_refl. }
    unfold installOc. rewrite Hlocal. cbn [Js.truthyOpt Js.str].
    apply truthy_true in Hp. now rewrite Hp.
  - intros Hnone. unfold installOc. now rewrite Hnone.
Qed.

Lemma installOc_reuses_local_witness :
  @installOc sampleConstants hostWithOc "V3.11.0" "Linux" true emptyWorld
  = (Ok "/usr/bin/oc", emptyWorld)
  /\ @installOc sampleConstants hostWithOc "4.1.0" "Linux" true readyWorld
     = @installOc sampleConstants hostWithOc "4.1.0" "Linux" false readyWorld.
Proof.
  split.
  - destruct (@installOc_reuses_local sampleConstants hostWithOc "V3.11.0"
                "Linux" emptyWorld) as [Hreuse _].
    apply Hreuse; [reflexivity | discriminate |].
    right. exists "v3.11.0". split; reflexivity.
  - destruct (@installOc_reuses_local sampleConstants hostWithOc "4.1.0"
                "Linux" readyWorld) as [_ Hskip].
    apply Hskip. reflexivity.
Defined.

(** ** PATH registration, continued *)

Lemma lastIndexOf_bound (c : ascii) (s : string) : (-1 <= Js.lastIndexOf c s)%Z.
Proof.
  induction s as [|a s IH]; cbn [Js.lastIndexOf]; [lia |].
  destruct (Z.leb_spec 0 (Js.lastIndexOf c s)); [lia |].
  destruct (Ascii.eqb a c); lia.
Qed.

Lemma lastIndexOf_decompose (c : ascii) (s : string) :
  (0 <= Js.lastIndexOf c s)%Z ->
  exists d f : string,
    s = d +:+ String c f
    /\ Js.lastIndexOf c f = (-1)%Z
    /\ Js.lastIndexOf c s = Z.of_nat (String.length d).
Proof.
  induction s as [|a s IH]; cbn [Js.lastIndexOf]; [lia |].
  destruct (Z.leb_spec 0 (Js.lastIndexOf c s)) as [Hge|Hlt].
  - intros _. destruct (IH Hge) as (d & f & -> & Hf & Hlen).
    exists (String a d), f. split; [reflexivity |]. split; [exact Hf |].
    rewrite Hlen. cbn [String.length]. lia.
  - destruct (Ascii.eqb_spec a c) as [-> | Hne]; [| lia].
    intros _. exists EmptyString, s. split; [reflexivity |].
    split; [| reflexivity].
    assert (Hbound := lastIndexOf_bound c s). lia.
Qed.

(** X10: the directory that [addOcToPath] prepends.  When the separator
    of the OS occurs in the path, the directory is the path up to its
    last separator: the path is that directory, the separator and a
    name without separator.  When it does not occur, the directory is
    empty and PATH begins with the list separator. *)
Theorem addOcToPath_directory (p osType : string) (w : World) :
  p <> EmptyString ->
  let sep := if String.eqb osType "Windows_NT" then "\"%char else "/"%char in
  let listSep := if String.eqb osType "Windows_NT" then ";" else ":" in
  let PATH' := variables (snd (addOcToPath (Some p) osType w)) !! "PATH" in
  ((0 <= Js.lastIndexOf sep p)%Z ->
   exists d f : string,
     p = d +:+ String sep f
     /\ Js.lastIndexOf sep f = (-1)%Z
     /\ PATH' = Some (d +:+ listSep +:+ Js.str (variables w !! "PATH")))
  /\ (Js.lastIndexOf sep p = (-1)%Z ->
      PATH' = Some (listSep +:+ Js.str (variables w !! "PATH"))).
Proof.
  intros Hp sep listSep PATH'.
  assert (Hpath : PATH' = Some (dirOf sep p +:+ listSep
                                +:+ Js.str (variables w !! "PATH"))).
  { subst PATH' sep listSep. unfold addOcToPath.
    destruct p as [|a p]; [contradiction |].
    destruct (String.eqb osType "Windows_NT"); cbn; apply lookup_insert_eq. }
  split.
  - intros Hge. destruct (lastIndexOf_decompose _ _ Hge) as (d & f & Hs & Hf & _).
    exists d, f. split; [exact Hs |]. split; [exact Hf |].
    now rewrite Hpath, Hs, (dirOf_append _ _ _ Hf).
  - intros Hnone. rewrite Hpath. unfold dirOf, Js.substr0. now rewrite Hnone.
Qed.

Lemma addOcToPath_directory_witness :
  variables (snd (addOcToPath (Some "oc") "Linux"
                    {| files := ∅; variables := {["PATH" := "/usr/bin"]};
                       transfers := [] |})) !! "PATH"
  = Some ":/usr/bin"
  /\ exists d f : string,
      "/a/b/oc" = d +:+ String "/" f
      /\ variables (snd (addOcToPath (Some "/a/b/oc") "Linux" emptyWorld)) !! "PATH"
         = Some (d +:+ ":" +:+ "undefined").
Proof.
  split.
  - apply (addOcToPath_directory "oc" "Linux"); [discriminate | reflexivity].
  - destruct (addOcToPath_directory "/a/b/oc" "Linux" emptyWorld) as [Hdir _];
      [discriminate |].
    destruct Hdir as (d & f & Hs & _ & Hpath); [now vm_compute |].
    exists d, f. split; [exact Hs | exact Hpath].
Defined.

(** X11: [addOcToPath] changes PATH and nothing else: the other task
    variables, the files and the transfers are as before.  It is not
    idempotent: a second call for the same path prepends the directory a
    second time. *)
Theorem addOcToPath_frame (ocPath : option string) (osType : string) (w : World) :
  let w' := snd (addOcToPath ocPath osType w) in
  files w' = files w
  /\ transfers w' = transfers w
  /\ (forall name : string,
         name <> "PATH" -> variables w' !! name = variables w !! name)
  /\ (forall p old : string,
         ocPath = Some p -> p <> EmptyString ->
         variables w' !! "PATH" = Some old ->
         variables (snd (addOcToPath ocPath osType w')) !! "PATH"
         = Some (dirOf (if String.eqb osType "Windows_NT" then "\" else "/")%char p
                 +:+ (if String.eqb osType "Windows_NT" then ";" else ":")
                 +:+ old)).
Proof.
  cbv zeta. destruct ocPath as [[|a p]|].
  - repeat split; try reflexivity. intros p old [= <-] Hne. contradiction.
  - assert (Hframe : forall w0 : World,
               let w1 := snd (addOcToPath (Some (String a p)) osType w0) in
               files w1 = files w0 /\ transfers w1 = transfers w0
               /\ (forall name : string,
                      name <> "PATH" -> variables w1 !! name = variables w0 !! name)
               /\ variables w1 !! "PATH"
                  = Some (dirOf (if String.eqb osType "Windows_NT"
                                 then "\" else "/")%char (String a p)
                          +:+ (if String.eqb osType "Windows_NT" then ";" else ":")
                          +:+ Js.str (variables w0 !! "PATH"))).
    { intros w0. unfold addOcToPath.
      destruct (String.eqb osType "Windows_NT"); cbn;
        (repeat split; [| apply lookup_insert_eq]);
        intros name Hname; now apply lookup_insert_ne. }
    destruct (Hframe w) as (Hf & Ht & Hv & _).
    repeat split; [exact Hf | exact Ht | exact Hv |].
    intros p' old [= <-] _ Hold.
    destruct (Hframe (snd (addOcToPath (Some (String a p)) osType w)))
      as (_ & _ & _ & Hpath).
    now rewrite Hpath, Hold.
  - repeat split; try reflexivity. intros p old [=].
Qed.

Lemma addOcToPath_frame_witness :
  let w := {| files := ∅; variables := {["PATH" := "/usr/bin"]};
              transfers := [] |} in
  variables (snd (addOcToPath (Some "/a/b/oc") "Linux"
                    (snd (addOcToPath (Some "/a/b/oc") "Linux" w)))) !! "PATH"
  = Some "/a/b:/a/b:/usr/bin".
Proof.
  intros w.
  destruct (addOcToPath_frame (Some "/a/b/oc") "Linux" w) as (_ & _ & _ & Htwice).
  apply (Htwice "/a/b/oc" "/a/b:/usr/bin"); [reflexivity | discriminate |].
  reflexivity.
Defined.

(** ** The archive name of a URL *)

Lemma split_nonempty (sep : ascii) (s : string) : Js.split sep s <> [].
Proof.
  induction s as [|a s IH]; cbn [Js.split]; [discriminate |].
  destruct (Ascii.eqb a sep); [discriminate |].
  now destruct (Js.split sep s).
Qed.

Lemma split_no_sep (sep : ascii) (s : string) :
  Js.lastIndexOf sep s = (-1)%Z -> Js.split sep s = [s].
Proof.
  induction s as [|a s IH]; [reflexivity |]. cbn [Js.lastIndexOf Js.split].
  destruct (Z.leb_spec 0 (Js.lastIndexOf sep s)) as [Hge|Hlt]; [lia |].
  destruct (Ascii.eqb a sep); [discriminate |].
  intros _. rewrite IH; [reflexivity |].
  pose proof (lastIndexOf_bound sep s). lia.
Qed.

Lemma split_append (sep : ascii) (a b : string) :
  Js.split sep (a +:+ String sep b) = (Js.split sep a ++ Js.split sep b)%list.
Proof.
  induction a as [|x a IH].
  - change (EmptyString +:+ String sep b) with (String sep b).
    cbn [Js.split]. now rewrite Ascii.eqb_refl.
  - change (String x a +:+ String sep b) with (String x (a +:+ String sep b)).
    cbn [Js.split]. rewrite IH.
    destruct (Ascii.eqb x sep); [reflexivity |].
    pose proof (split_nonempty sep a).
    now destruct (Js.split sep a).
Qed.

Lemma last_app_nonempty (l1 l2 : list string) (d : string) :
  l2 <> [] -> List.last (l1 ++ l2)%list d = List.last l2 d.
Proof.
  intros Hne. induction l1 as [|x l1 IH]; [reflexivity |].
  cbn [app List.last]. rewrite IH.
  destruct (l1 ++ l2)%list eqn:Happ; [| reflexivity].
  apply app_eq_nil in Happ as [_ ->]. contradiction.
Qed.

Lemma archiveOf_append (pre y : string) :
  archiveOf (pre +:+ String "/" y) = archiveOf y.
Proof.
  unfold archiveOf. rewrite split_append.
  apply last_app_nonempty, split_nonempty.
Qed.

Lemma archiveOf_no_slash (f : string) :
  Js.lastIndexOf "/" f = (-1)%Z -> archiveOf f = f.
Proof. intros Hf. unfold archiveOf. now rewrite (split_no_sep _ _ Hf). Qed.

(** X12: the archive name is what follows the last slash of the URL, and
    the whole URL when it has no slash.  It holds no slash itself, and
    what is put before it does not change it. *)
Theorem archiveOf_last_segment (url : string) :
  Js.lastIndexOf "/" (archiveOf url) = (-1)%Z
  /\ ((0 <= Js.lastIndexOf "/" url)%Z ->
      exists d : string, url = d +:+ String "/" (archiveOf url))
  /\ (Js.lastIndexOf "/" url = (-1)%Z -> archiveOf url = url)
  /\ (forall pre : string, archiveOf (pre +:+ String "/" url) = archiveOf url).
Proof.
  assert (Hcases : (0 <= Js.lastIndexOf "/" url)%Z
                   \/ Js.lastIndexOf "/" url = (-1)%Z).
  { pose proof (lastIndexOf_bound "/" url). lia. }
  split; [| split; [| split]].
  - destruct Hcases as [Hge|Hnone].
    + destruct (lastIndexOf_decompose _ _ Hge) as (d & f & -> & Hf & _).
      now rewrite archiveOf_append, (archiveOf_no_slash _ Hf).
    + now rewrite (archiveOf_no_slash _ Hnone).
  - intros Hge. destruct (lastIndexOf_decompose _ _ Hge) as (d & f & -> & Hf & _).
    exists d. now rewrite archiveOf_append, (archiveOf_no_slash _ Hf).
  - apply archiveOf_no_slash.
  - intros pre. apply archiveOf_append.
Qed.

Lemma archiveOf_last_segment_witness :
  exists d : string,
    "https://example.com/files/oc.tar.gz"
    = d +:+ String "/" (archiveOf "https://example.com/files/oc.tar.gz").
Proof.
  destruct (archiveOf_last_segment "https://example.com/files/oc.tar.gz")
    as (_ & Hsplit & _).
  apply Hsplit. now vm_compute.
Defined.

Lemma ocBundleURL_ends_in_bundle `{Constants} (ocUtils : gmap string string)
    (version osType : string) (latest : bool) (url : string) :
  ocBundleURL ocUtils version osType latest = Some url ->
  exists pre bundle : string,
    getOcBundleByOS osType = Some bundle /\ url = pre +:+ String "/" bundle.
Proof.
  unfold ocBundleURL. destruct (negb (Js.truthy version)); [discriminate |].
  cbv zeta.
  destruct (Regex.exec Regex.majorRe (stripV version)) as [m|]; [| discriminate].
  destruct (if latest then _ else _) as [v|]; [| discriminate].
  unfold baseUrlFor.
  destruct (getOcBundleByOS osType) as [bundle|] eqn:Hb.
  - rewrite (bundle_truthy _ _ Hb).
    destruct (Js.toNumber m =? 3)%N;
      [| destruct (Js.toNumber m =? 4)%N; [| discriminate]];
      intros [= <-];
      [exists (V3Base ocUtils +:+ "/" +:+ v) | exists (V4Base ocUtils +:+ "/" +:+ v)];
      exists bundle; (split; [reflexivity |]); now rewrite !append_assoc.
  - destruct (Js.toNumber m =? 3)%N;
      [| destruct (Js.toNumber m =? 4)%N]; discriminate.
Qed.

Lemma latestStable_ends_in_bundle `{Constants} (ocUtils : gmap string string)
    (osType url : string) :
  latestStable ocUtils osType = Some url ->
  exists pre bundle : string,
    getOcBundleByOS osType = Some bundle /\ url = pre +:+ String "/" bundle.
Proof.
  unfold latestStable.
  destruct (getOcBundleByOS osType) as [bundle|] eqn:Hb; [| discriminate].
  rewrite (bundle_truthy _ _ Hb). intros [= <-].
  exists (V4Base ocUtils +:+ "/" +:+ LATEST), bundle.
  split; [reflexivity |]. now rewrite !append_assoc.
Qed.

(** X13: the resolver and the extractor fit together.  Whatever the
    version, the mirror and the table, the archive of a URL that
    [ocBundleURL] or [latestStable] returns is the archive of the bundle
    of the OS.  For ["Windows_NT"] it is [oc.zip], of type [.zip]: on a
    resolved URL the extraction there is the zip one and is never
    rejected as an unknown archive format. *)
Theorem resolved_archive `{Constants} `{Host} (version osType : string)
    (latest : bool) (url : string) :
  ocBundleURL ocUtils version osType latest = Some url
  \/ latestStable ocUtils osType = Some url ->
  (exists bundle : string,
      getOcBundleByOS osType = Some bundle
      /\ archiveOf url = archiveOf bundle)
  /\ (osType = "Windows_NT" ->
      archiveOf url = "oc.zip"
      /\ archiveTypeOf (archiveOf url) = ".zip"
      /\ forall archivePath dir : string,
          extract archivePath (archiveTypeOf (archiveOf url)) dir
          = unzip archivePath dir).
Proof.
  intros Hurl.
  assert (Hend : exists pre bundle : string,
             getOcBundleByOS osType = Some bundle
             /\ url = pre +:+ String "/" bundle).
  { destruct Hurl as [Hurl|Hurl];
      [now apply ocBundleURL_ends_in_bundle in Hurl
      | now apply latestStable_ends_in_bundle in Hurl]. }
  destruct Hend as (pre & bundle & Hb & ->).
  split.
  - exists bundle. split; [exact Hb | apply archiveOf_append].
  - intros ->. injection Hb as <-.
    rewrite archiveOf_append.
    change (archiveOf (WIN +:+ "/" +:+ OC_ZIP)) with "oc.zip".
    repeat split.
Qed.

Lemma resolved_archive_witness :
  archiveOf "https://mirror.openshift.com/pub/openshift-v4/clients/oc/4.1.18/windows/oc.zip"
  = "oc.zip".
Proof.
  destruct (@resolved_archive sampleConstants sampleHost "4.1.0" "Windows_NT" true
              "https://mirror.openshift.com/pub/openshift-v4/clients/oc/4.1.18/windows/oc.zip")
    as [_ Hwin]; [left; reflexivity |].
  now destruct (Hwin eq_refl).
Defined.

(** ** The version of the local [oc] *)

Lemma truthy_false_empty (s : string) : Js.truthy s = false -> s = EmptyString.
Proof. now destruct s. Qed.

Lemma Matches_localVersion (v rest : string) :
  Matches Regex.localVersionRe v rest ->
  exists (major minor patch : string) (x y : ascii),
    v = String "v" (major +:+ String x (minor +:+ String y patch))
    /\ major <> EmptyString /\ allDigits major = true
    /\ minor <> EmptyString /\ allDigits minor = true
    /\ patch <> EmptyString /\ allDigits patch = true
    /\ Regex.anyChar x = true /\ Regex.anyChar y = true.
Proof.
  intros H.
  apply Matches_One_inv in H as (a & m1 & -> & Ha & H).
  apply Matches_Many1_inv in H as (major & m2 & -> & Hmajor & Hdmajor & H).
  apply Matches_One_inv in H as (x & m3 & -> & Hx & H).
  apply Matches_Many1_inv in H as (minor & m4 & -> & Hminor & Hdminor & H).
  apply Matches_One_inv in H as (y & m5 & -> & Hy & H).
  apply Matches_Many1_inv in H as (patch & m6 & -> & Hpatch & Hdpatch & H).
  apply Matches_nil_inv in H. subst m6.
  unfold Regex.isV in Ha. apply Ascii.eqb_eq in Ha. subst a.
  rewrite allOf_isDigit in Hdmajor, Hdminor, Hdpatch.
  exists major, minor, patch, x, y. rewrite append_nil_r.
  now repeat split.
Qed.

(** X14: the version [getOcVersion] returns is a part of the output it
    read: that of [oc version --short=true --client=true] when that call
    gave a result without error output, that of [oc version] otherwise.
    It is the letter [v], digits, one character, digits, one character
    and digits; the two characters are anything but a line break, not
    necessarily dots. *)
Theorem getOcVersion_shape `{Host} (ocPath v : string) :
  getOcVersion ocPath = Some v ->
  exists (r : ExecResult) (pre rest : string),
    ((execOcSync ocPath "version --short=true --client=true" = Some r
      /\ stderr r = EmptyString)
     \/ (execOcSync ocPath "version" = Some r
         /\ (execOcSync ocPath "version --short=true --client=true" = None
             \/ exists r0 : ExecResult,
                 execOcSync ocPath "version --short=true --client=true" = Some r0
                 /\ stderr r0 <> EmptyString)))
    /\ stdout r = pre +:+ v +:+ rest
    /\ exists (major minor patch : string) (x y : ascii),
        v = String "v" (major +:+ String x (minor +:+ String y patch))
        /\ major <> EmptyString /\ allDigits major = true
        /\ minor <> EmptyString /\ allDigits minor = true
        /\ patch <> EmptyString /\ allDigits patch = true
        /\ Regex.anyChar x = true /\ Regex.anyChar y = true.
Proof.
  unfold getOcVersion.
  set (short := execOcSync ocPath "version --short=true --client=true").
  assert (Hwhich :
            forall r : ExecResult,
              match short with
              | Some r0 => if Js.truthy (stderr r0)
                           then execOcSync ocPath "version" else short
              | None => execOcSync ocPath "version"
              end = Some r ->
              (short = Some r /\ stderr r = EmptyString)
              \/ (execOcSync ocPath "version" = Some r
                  /\ (short = None
                      \/ exists r0 : ExecResult,
                          short = Some r0 /\ stderr r0 <> EmptyString))).
  { intros r. destruct short as [r0|]; [| intros Hr; right; split; [exact Hr | now left]].
    destruct (Js.truthy (stderr r0)) eqn:Herr.
    - intros Hr. right. split; [exact Hr |]. right. exists r0.
      split; [reflexivity | now apply truthy_true].
    - intros [= <-]. left. split; [reflexivity | now apply truthy_false_empty]. }
  destruct (match short with Some r0 => _ | None => _ end) as [r|];
    [| discriminate].
  destruct (Js.truthy (stdout r)); [| discriminate].
  intros Hexec. destruct (exec_sound _ _ _ Hexec) as (pre & rest & Hs & Hmatch).
  exists r, pre, rest. split; [now apply Hwhich |]. split; [exact Hs |].
  now apply Matches_localVersion in Hmatch.
Qed.

Lemma getOcVersion_shape_witness :
  exists (r : ExecResult) (pre rest : string),
    @execOcSync hostWithOc "/usr/bin/oc" "version" = Some r
    /\ stdout r = pre +:+ "v3.11.0" +:+ rest.
Proof.
  destruct (@getOcVersion_shape hostWithOc "/usr/bin/oc" "v3.11.0" eq_refl)
    as (r & pre & rest & [[Hshort _] | [Hplain _]] & Hout & _).
  - exfalso. vm_compute in Hshort. injection Hshort as <-.
    destruct pre; discriminate.
  - now exists r, pre, rest.
Defined.

(** ** The earlier generation *)

(** X15: the two generations resolve alike.  When the table holds the
    two mirror constants as its base URLs, the earlier [ocBundleURL] and
    [latestStable] return what the current ones return, the current
    [ocBundleURL] being called without the fallback. *)
Theorem legacy_resolution_agrees `{Constants} `{Legacy.BaseUrls}
    (ocUtils : gmap string string) (version osType : string) :
  ocUtils !! "openshiftV3BaseUrl" = Some Legacy.OPENSHIFT_V3_BASE_URL ->
  ocUtils !! "openshiftV4BaseUrl" = Some Legacy.OPENSHIFT_V4_BASE_URL ->
  Legacy.ocBundleURL version osType = ocBundleURL ocUtils version osType false
  /\ Legacy.latestStable osType = latestStable ocUtils osType.
Proof.
  intros H3 H4. split.
  - unfold Legacy.ocBundleURL, ocBundleURL.
    destruct (negb (Js.truthy version)); [reflexivity |]. cbv zeta.
    destruct (Regex.exec Regex.majorRe (stripV version)) as [m|]; [| reflexivity].
    unfold baseUrlFor, V3Base, V4Base. now rewrite H3, H4.
  - unfold Legacy.latestStable, latestStable, V4Base. now rewrite H4.
Qed.

Lemma legacy_resolution_agrees_witness :
  @Legacy.ocBundleURL sampleConstants sampleBaseUrls "v3.11.0" "Linux"
  = @ocBundleURL sampleConstants sampleOcUtils "v3.11.0" "Linux" false
  /\ @Legacy.latestStable sampleConstants sampleBaseUrls "Linux"
     = @latestStable sampleConstants sampleOcUtils "Linux".
Proof.
  apply (@legacy_resolution_agrees sampleConstants sampleBaseUrls sampleOcUtils
           "v3.11.0" "Linux"); reflexivity.
Defined.

(** The earlier [downloadAndExtract] for a non-empty URL and an existing
    directory, step by step. *)
Lemma legacy_downloadAndExtract_run `{Host} `{Legacy.Unfiltered}
    (url downloadDir osType : string) (w : World) :
  url <> EmptyString ->
  normalize (normalize downloadDir) ∈ files w ->
  Legacy.downloadAndExtract url downloadDir osType w
  = let dir := normalize downloadDir in
    let expandPath := join dir (Legacy.expandDirOf (archiveOf url)) in
    let ocBinary := join expandPath (ocBinaryName osType) in
    match download url dir w with
    | (Ok archivePath, w1) =>
        match (if bool_decide (normalize expandPath ∈ files w1)
               then (Ok tt, w1)
               else Legacy.extract archivePath (archiveTypeOf (archiveOf url))
                                   expandPath dir w1) with
        | (Ok _, w2) =>
            (Ok (if bool_decide (normalize ocBinary ∈ files w2)
                 then Some ocBinary else None), w2)
        | (Err e, w2) => (Err e, w2)
        end
    | (Err e, w1) => (Err e, w1)
    end.
Proof.
  intros Hurl Hdir. unfold Legacy.downloadAndExtract.
  apply truthy_true in Hurl. rewrite Hurl. cbn [negb].
  unfold bind at 1. rewrite exist_run, (bool_decide_eq_true_2 _ Hdir).
  cbn [negb]. unfold bind at 1. cbv zeta.
  destruct (download url (normalize downloadDir) w) as [[archivePath|e] w1];
    [| reflexivity].
  unfold bind at 1. rewrite exist_run. unfold bind at 1.
  destruct (bool_decide (normalize (join (normalize downloadDir)
                                      (Legacy.expandDirOf (archiveOf url)))
                         ∈ files w1)); cbn [negb ret].
  - unfold bind. rewrite exist_run. now destruct (bool_decide _).
  - destruct (Legacy.extract archivePath _ _ (normalize downloadDir) w1)
      as [[[]|e] w2]; [| reflexivity].
    unfold bind. rewrite exist_run. now destruct (bool_decide _).
Qed.

(** X16: the earlier generation expands an archive once.  With the
    archive in the directory and the path named after it present, the
    earlier [downloadAndExtract] extracts nothing and transfers nothing:
    it leaves the world as it was, and it is not rejected with "unknown
    archive format", whatever the type of the archive; a path it
    resolves to is that of the executable below the path named after
    the archive, a file of that world.  The current generation extracts
    on every call, and in the same world is rejected when the type is
    unknown. *)
Theorem legacy_expands_once `{Host} `{Legacy.Unfiltered}
    (url downloadDir osType : string) (w : World) :
  let dir := normalize downloadDir in
  let archivePath := join dir (archiveOf url) in
  let expandPath := join dir (Legacy.expandDirOf (archiveOf url)) in
  let archiveType := archiveTypeOf (archiveOf url) in
  url <> EmptyString ->
  normalize dir ∈ files w ->
  normalize archivePath ∈ files w ->
  normalize expandPath ∈ files w ->
  snd (Legacy.downloadAndExtract url downloadDir osType w) = w
  /\ fst (Legacy.downloadAndExtract url downloadDir osType w)
     <> Err (RejectString ("unknown archive format " +:+ archivePath))
  /\ (forall ocBinary : string,
         fst (Legacy.downloadAndExtract url downloadDir osType w)
         = Ok (Some ocBinary) ->
         ocBinary = join expandPath (ocBinaryName osType)
         /\ normalize ocBinary ∈ files w)
  /\ (archiveType <> ".zip" -> archiveType <> ".tgz" ->
      archiveType <> ".tar.gz" ->
      fst (downloadAndExtract url downloadDir osType w)
      = Err (RejectString ("unknown archive format " +:+ archivePath))).
Proof.
  intros dir archivePath expandPath archiveType Hurl Hdir Harchive Hexp.
  subst dir archivePath expandPath archiveType.
  assert (Hrun : Legacy.downloadAndExtract url downloadDir osType w
                 = (Ok (if bool_decide
                             (normalize
                                (join (join (normalize downloadDir)
                                            (Legacy.expandDirOf (archiveOf url)))
                                      (ocBinaryName osType)) ∈ files w)
                        then Some (join (join (normalize downloadDir)
                                              (Legacy.expandDirOf (archiveOf url)))
                                        (ocBinaryName osType))
                        else None), w)).
  { rewrite (legacy_downloadAndExtract_run _ _ _ _ Hurl Hdir). cbv zeta.
    rewrite (download_present _ _ _ Harchive).
    now rewrite (bool_decide_eq_true_2 _ Hexp). }
  rewrite Hrun. cbn [fst snd].
  split; [reflexivity |]. split; [discriminate |]. split.
  - destruct (bool_decide _) eqn:Hfound; [| discriminate].
    intros ocBinary [= <-]. split; [reflexivity |].
    now apply bool_decide_eq_true_1 in Hfound.
  - intros Hz Ht Hg.
    rewrite (downloadAndExtract_run _ _ _ _ Hurl Hdir). cbv zeta.
    rewrite (download_present _ _ _ Harchive).
    now rewrite (extract_unknown _ _ _ _ Hz Ht Hg).
Qed.

Lemma legacy_expands_once_witness :
  @Legacy.downloadAndExtract sampleHost sampleUnfiltered
    "https://example.com/files/oc.rar" "/agent/work/.download" "Linux"
    expandedWorld
  = (Ok (Some "/agent/work/.download/oc/oc"), expandedWorld)
  /\ fst (@downloadAndExtract sampleHost "https://example.com/files/oc.rar"
            "/agent/work/.download" "Linux" expandedWorld)
     = Err (RejectString "unknown archive format /agent/work/.download/oc.rar").
Proof.
  destruct (@legacy_expands_once sampleHost sampleUnfiltered
              "https://example.com/files/oc.rar" "/agent/work/.download" "Linux"
              expandedWorld) as (Hworld & _ & _ & Hcurrent).
  - discriminate.
  - cbn. set_solver.
  - cbn. set_solver.
  - cbn. set_solver.
  - split; [| apply Hcurrent; vm_compute; discriminate].
    apply injective_projections; [reflexivity | exact Hworld].
Defined.

Lemma legacy_downloadAndExtract_some `{Host} `{Legacy.Unfiltered}
    (url downloadDir osType ocBinary : string) (w w' : World) :
  Legacy.downloadAndExtract url downloadDir osType w = (Ok (Some ocBinary), w') ->
  ocBinary = join (join (normalize downloadDir)
                        (Legacy.expandDirOf (archiveOf url)))
                  (ocBinaryName osType)
  /\ normalize ocBinary ∈ files w'.
Proof.
  intros Hrun.
  destruct (String.eqb_spec url EmptyString) as [Hurl|Hurl].
  { subst url. discriminate. }
  destruct (decide (normalize (normalize downloadDir) ∈ files w)) as [Hdir|Hdir].
  2:{ unfold Legacy.downloadAndExtract in Hrun. apply truthy_true in Hurl.
      rewrite Hurl in Hrun. cbn [negb] in Hrun. unfold bind in Hrun.
      rewrite exist_run, (bool_decide_eq_false_2 _ Hdir) in Hrun. discriminate. }
  rewrite (legacy_downloadAndExtract_run _ _ _ _ Hurl Hdir) in Hrun.
  cbv zeta in Hrun.
  destruct (download url (normalize downloadDir) w) as [[archivePath|e] w1];
    [| discriminate].
  destruct (if bool_decide _ then _ else _) as [[[]|e] w2]; [| discriminate].
  destruct (bool_decide (normalize (join (join (normalize downloadDir)
                                            (Legacy.expandDirOf (archiveOf url)))
                                      (ocBinaryName osType)) ∈ files w2))
    eqn:Hfound; [| discriminate].
  injection Hrun as <- <-. apply bool_decide_eq_true_1 in Hfound. now split.
Qed.

Lemma legacy_installOc_run `{Constants} `{Legacy.BaseUrls} `{Host}
    `{Legacy.Unfiltered} (downloadVersion osType : string) (w : World) :
  Legacy.installOc downloadVersion osType w
  = match (if Js.truthy downloadVersion then Some downloadVersion
           else Legacy.latestStable osType) with
    | None =>
        (Err (RejectString "Unable to determine latest oc download URL"), w)
    | Some version =>
        match ensureDirectory downloadDirectory w with
        | (Err e, w2) => (Err e, w2)
        | (Ok _, w2) =>
            match (if isWebUri version then Some version
                   else Legacy.ocBundleURL version osType) with
            | None =>
                (Err (RejectString "Unable to determine oc download URL."), w2)
            | Some url =>
                match Legacy.downloadAndExtract url downloadDirectory osType w2 with
                | (Err e, w4) => (Err e, w4)
                | (Ok None, w4) =>
                    (Err (RejectString "Unable to download or extract oc binary."),
                     w4)
                | (Ok (Some ocBinary), w4) => (Ok ocBinary, w4)
                end
            end
        end
    end.
Proof.
  unfold Legacy.installOc. unfold bind at 1.
  destruct (Js.truthy downloadVersion); cbn [negb ret].
  - unfold bind at 1.
    destruct (ensureDirectory downloadDirectory w) as [[[]|e] w2]; [| reflexivity].
    destruct (if isWebUri downloadVersion then _ else _) as [url|];
      [| reflexivity].
    unfold bind.
    now destruct (Legacy.downloadAndExtract url downloadDirectory osType w2)
      as [[[p|]|e] w4].
  - destruct (Legacy.latestStable osType) as [version|]; [| reflexivity].
    cbn [ret]. unfold bind at 1.
    destruct (ensureDirectory downloadDirectory w) as [[[]|e] w2]; [| reflexivity].
    destruct (if isWebUri version then _ else _) as [url|]; [| reflexivity].
    unfold bind.
    now destruct (Legacy.downloadAndExtract url downloadDirectory osType w2)
      as [[[p|]|e] w4].
Qed.

(** X17: the earlier [installOc].  It probes no URL and has no fallback:
    for a version that is not a web URI and does not resolve, it
    transfers nothing and is rejected with "Unable to determine oc
    download URL.", unless the download directory could not be made.
    The path it resolves to is that of the executable in a directory
    named after the archive, below the download directory, and that
    file exists. *)
Theorem legacy_installOc_outcomes `{Constants} `{Legacy.BaseUrls} `{Host}
    `{Legacy.Unfiltered} (downloadVersion osType : string) (w : World) :
  (downloadVersion <> EmptyString -> isWebUri downloadVersion = false ->
   Legacy.ocBundleURL downloadVersion osType = None ->
   transfers (snd (Legacy.installOc downloadVersion osType w)) = transfers w
   /\ (fst (Legacy.installOc downloadVersion osType w)
       = Err (RejectString "Unable to determine oc download URL.")
       \/ fst (Legacy.installOc downloadVersion osType w)
          = Err (RejectTool "mkdir")))
  /\ (forall (ocBinary : string) (w' : World),
         Legacy.installOc downloadVersion osType w = (Ok ocBinary, w') ->
         exists url : string,
           ocBinary
           = join (join (normalize downloadDirectory)
                        (Legacy.expandDirOf (archiveOf url)))
                  (if String.eqb osType "Windows_NT" then "oc.exe" else "oc")
           /\ normalize ocBinary ∈ files w').
Proof.
  rewrite legacy_installOc_run. split.
  - intros Hne Hweb Hnull. apply truthy_true in Hne. rewrite Hne, Hweb, Hnull.
    pose proof (ensureDirectory_frame downloadDirectory w) as (_ & _ & Htr).
    assert (Hmk : forall e : rejection,
               fst (ensureDirectory downloadDirectory w) = Err e ->
               e = RejectTool "mkdir").
    { unfold ensureDirectory, bind. rewrite exist_run.
      destruct (bool_decide _); cbn [negb]; [discriminate |].
      unfold mkdir. destruct (mkdirExec downloadDirectory); [discriminate |].
      now intros e [= <-]. }
    destruct (ensureDirectory downloadDirectory w) as [[[]|e] w2];
      cbn [fst snd] in *.
    + split; [exact Htr | now left].
    + split; [exact Htr |]. right. now rewrite (Hmk e eq_refl).
  - intros ocBinary w' Hrun.
    destruct (if Js.truthy downloadVersion then _ else _) as [version|];
      [| discriminate].
    destruct (ensureDirectory downloadDirectory w) as [[[]|e] w2];
      [| discriminate].
    destruct (if isWebUri version then Some version
              else Legacy.ocBundleURL version osType) as [url|];
      [| discriminate].
    destruct (Legacy.downloadAndExtract url downloadDirectory osType w2)
      as [[[p|]|e] w4] eqn:Hextract; try discriminate.
    injection Hrun as <- <-. exists url.
    now apply legacy_downloadAndExtract_some in Hextract.
Qed.

Lemma legacy_installOc_outcomes_witness :
  fst (@Legacy.installOc sampleConstants sampleBaseUrls sampleHost sampleUnfiltered
         "5.0.0" "Linux" emptyWorld)
  = Err (RejectString "Unable to determine oc download URL.")
  /\ transfers (snd (@Legacy.installOc sampleConstants sampleBaseUrls sampleHost
                       sampleUnfiltered "5.0.0" "Linux" emptyWorld)) = [].
Proof.
  destruct (@legacy_installOc_outcomes sampleConstants sampleBaseUrls sampleHost
              sampleUnfiltered "5.0.0" "Linux" emptyWorld) as [Hnull _].
  destruct Hnull as [Htr [Hrej|Hmk]]; [discriminate | reflexivity | reflexivity | |].
  - split; [exact Hrej | exact Htr].
  - vm_compute in Hmk. discriminate.
Defined.

(** ** Running the install again *)

Lemma extract_outcome `{Host} (archivePath archiveType dir : string) (w w' : World) :
  fst (extract archivePath archiveType dir w)
  = fst (extract archivePath archiveType dir w').
Proof.
  unfold extract, unzip, untargz, reject.
  destruct (String.eqb archiveType ".zip");
    [destruct (extractAllTo archivePath dir) |
     destruct (String.eqb archiveType ".tgz" || String.eqb archiveType ".tar.gz");
     [destruct (decompress archivePath dir) |]];
    reflexivity.
Qed.

Lemma ensureDirectory_present `{Host} (dir : string) (w : World) :
  normalize dir ∈ files w -> ensureDirectory dir w = (Ok tt, w).
Proof.
  intros Hin. unfold ensureDirectory, bind. rewrite exist_run.
  now rewrite (bool_decide_eq_true_2 _ Hin).
Qed.

Lemma ensureDirectory_ok `{Host} (dir : string) (w w' : World) :
  ensureDirectory dir w = (Ok tt, w') -> normalize dir ∈ files w'.
Proof.
  unfold ensureDirectory, bind. rewrite exist_run.
  destruct (bool_decide (normalize dir ∈ files w)) eqn:Hin; cbn [negb].
  - intros [= <-]. now apply bool_decide_eq_true_1 in Hin.
  - unfold mkdir. destruct (mkdirExec dir); [| discriminate].
    intros [= <-]. cbn. set_solver.
Qed.

(** A call that resolved to the executable resolves to it again in the
    world it left behind, without a transfer. *)
Lemma downloadAndExtract_again `{Host} (url downloadDir osType ocBinary : string)
    (w w1 : World) :
  downloadAndExtract url downloadDir osType w = (Ok (Some ocBinary), w1) ->
  exists w2 : World,
    downloadAndExtract url downloadDir osType w1 = (Ok (Some ocBinary), w2)
    /\ transfers w2 = transfers w1
    /\ files w1 ⊆ files w2.
Proof.
  intros Hrun.
  destruct (downloadAndExtract_some _ _ _ _ _ _ Hrun) as (Hp & Hbin & Harch & Hurl).
  pose proof (downloadAndExtract_changes url downloadDir osType w) as (Hfiles & _).
  rewrite Hrun in Hfiles. cbn [snd] in Hfiles.
  destruct (decide (normalize (normalize downloadDir) ∈ files w)) as [Hdir|Hdir].
  2:{ pose proof (downloadAndExtract_guard url downloadDir osType w
                    (or_intror Hdir)) as Hsame.
      unfold downloadAndExtract in Hrun. pose proof Hurl as Hu.
      apply truthy_true in Hu.
      rewrite Hu in Hrun. cbn [negb] in Hrun. unfold bind in Hrun.
      rewrite exist_run, (bool_decide_eq_false_2 _ Hdir) in Hrun. discriminate. }
  assert (Hdir1 : normalize (normalize downloadDir) ∈ files w1)
    by exact (elem_of_weaken _ _ _ Hdir Hfiles).
  rewrite (downloadAndExtract_run _ _ _ _ Hurl Hdir) in Hrun. cbv zeta in Hrun.
  rewrite (downloadAndExtract_run _ _ _ _ Hurl Hdir1). cbv zeta.
  rewrite (download_present _ _ _ Harch).
  pose proof (download_frame url (normalize downloadDir) w) as (_ & _ & _ & Hpath).
  destruct (download url (normalize downloadDir) w) as [[archivePath|e] w0];
    [| discriminate].
  destruct (Hpath archivePath eq_refl) as [-> _].
  pose proof (extract_outcome (join (normalize downloadDir) (archiveOf url))
                (archiveTypeOf (archiveOf url)) (normalize downloadDir) w0 w1)
    as Hsame.
  pose proof (extract_frame (join (normalize downloadDir) (archiveOf url))
                (archiveTypeOf (archiveOf url)) (normalize downloadDir) w1)
    as [Hf2 Ht2].
  destruct (extract _ _ (normalize downloadDir) w0) as [[[]|e] w0'];
    [| discriminate].
  destruct (extract _ _ (normalize downloadDir) w1) as [[[]|e] w2];
    cbn [fst snd] in *; [| discriminate].
  exists w2. subst ocBinary.
  rewrite (bool_decide_eq_true_2 _ (elem_of_weaken _ _ _ Hbin Hf2)).
  now repeat split.
Qed.

(** X18: running the install again.  When [installOc] has resolved to a
    path, a second call with the same arguments in the world the first
    left behind resolves to the same path and transfers nothing. *)
Theorem installOc_again `{Constants} `{Host} (downloadVersion osType : string)
    (useLocalOc : bool) (ocBinary : string) (w w1 : World) :
  installOc downloadVersion osType useLocalOc w = (Ok ocBinary, w1) ->
  exists w2 : World,
    installOc downloadVersion osType useLocalOc w1 = (Ok ocBinary, w2)
    /\ transfers w2 = transfers w1.
Proof.
  intros Hrun.
  destruct (Js.truthyOpt (if useLocalOc then getLocalOcPath downloadVersion
                          else None)) eqn:Hlocal.
  - unfold installOc in Hrun |- *. rewrite Hlocal in Hrun |- *.
    injection Hrun as <- <-. now exists w.
  - rewrite (installOc_run _ _ _ _ Hlocal) in Hrun.
    rewrite (installOc_run _ _ _ _ Hlocal).
    rewrite pickVersion_run in Hrun. rewrite pickVersion_run.
    destruct (if Js.truthy downloadVersion then Ok downloadVersion else _)
      as [version|e]; [| discriminate].
    destruct (ensureDirectory downloadDirectory w) as [[[]|e] wa] eqn:Hdir;
      [| discriminate].
    apply ensureDirectory_ok in Hdir.
    pose proof (chooseUrl_run version osType wa) as [Hwb _].
    pose proof (chooseUrl_run version osType w1) as [Hwb1 _].
    assert (Hsame : fst (chooseUrl version osType w1)
                    = fst (chooseUrl version osType wa)).
    { unfold chooseUrl, resolveUrl. destruct (isWebUri version); [reflexivity |].
      destruct (fetchHead _) as [[]|]; reflexivity. }
    destruct (chooseUrl version osType wa) as [[[url|]|e] wb]; try discriminate.
    cbn [fst snd] in *. subst wb.
    destruct (downloadAndExtract url downloadDirectory osType wa)
      as [[[p|]|e] wc] eqn:Hextract; try discriminate.
    injection Hrun as <- <-.
    pose proof (downloadAndExtract_changes url downloadDirectory osType wa)
      as (Hfiles & _).
    rewrite Hextract in Hfiles. cbn [snd] in Hfiles.
    rewrite (ensureDirectory_present _ _ (elem_of_weaken _ _ _ Hdir Hfiles)).
    destruct (chooseUrl version osType wc) as [r wd]. cbn [fst snd] in *.
    subst r wd.
    destruct (downloadAndExtract_again _ _ _ _ _ _ Hextract)
      as (w2 & Hagain & Htr & _).
    rewrite Hagain. now exists w2.
Qed.

Lemma installOc_again_witness :
  let w := {| files := {["/agent/work/.download/oc"]};
              variables := ∅; transfers := [] |} in
  let first := @installOc sampleConstants sampleHost
                 "https://example.com/files/oc.tar.gz" "Linux" false w in
  fst first = Ok "/agent/work/.download/oc"
  /\ transfers (snd first) = ["https://example.com/files/oc.tar.gz"]
  /\ exists w2 : World,
      @installOc sampleConstants sampleHost
        "https://example.com/files/oc.tar.gz" "Linux" false (snd first)
      = (Ok "/agent/work/.download/oc", w2)
      /\ transfers w2 = ["https://example.com/files/oc.tar.gz"].
Proof.
  intros w first.
  assert (Hrun : first = (Ok "/agent/work/.download/oc", snd first))
    by (vm_compute; reflexivity).
  assert (Htr : transfers (snd first) = ["https://example.com/files/oc.tar.gz"])
    by (vm_compute; reflexivity).
  split; [now rewrite Hrun |]. split; [exact Htr |].
  destruct (@installOc_again sampleConstants sampleHost _ _ _ _ _ _ Hrun)
    as (w2 & Hagain & Hsame).
  exists w2. split; [exact Hagain | now rewrite Hsame].
Defined.
